(** * googlevoice: a shallow embedding of [util.py] and [voice.py]

    The development follows the two modules of the client library:

    - [Py]: the fragment of Python the library relies on (values, truthiness,
      exceptions, [str] operations, [os.path.join], the [re] fragment used by
      the three patterns of [voice.py]);
    - [Lib]: the state and exception monad, and what comes from other
      packages ([requests], [json], [expat], the [settings] and [conf]
      modules, the console and the shell), collected in the record [Env],
      which stays a parameter of the theorems;
    - [Util]: [googlevoice/util.py] ([validate_response], [AttrDict],
      [Folder], [XMLParser]);
    - [VoiceM]: [googlevoice/voice.py] (the [Voice] class), over the instance
      attributes and the outside world (HTTP exchanges, shell commands,
      files);
    - [FeedSpec], [VoiceSpec], [ExtraSpec]: the vocabulary of the
      statements;
    - [Scenario], [ExtraScenario]: a small concrete service to run the
      client against;
    - [VoiceMore]: the [settings] property of [Voice]; [MainM]: the [login]
      helper of [googlevoice/__main__.py];
    - [UtilTheory], [VoiceTheory]: the properties of the two modules;
      [UtilExtra], [VoiceExtra], [MainTheory]: further properties. *)

From Stdlib Require Import String Ascii List ZArith Lia Bool.
From stdpp Require Import gmap strings list fin_maps pretty.
From Equations Require Import Equations.

Set Warnings "-register-all".

Local Open Scope string_scope.
Local Open Scope Z_scope.

(* ===================================================================== *)
(** * The Python fragment                                                 *)
(* ===================================================================== *)

Module Py.

(** Values that travel through the library: JSON documents decoded by
    [json.loads], and the entries of the request dictionaries. *)
Inductive pyval : Type :=
| PNone
| PBool (b : bool)
| PInt (z : Z)
| PStr (s : string)
| PList (l : list pyval)
| PDict (m : gmap string pyval).

(** Exceptions: the six classes of [util.py], the builtin ones the code
    raises or catches, and [LibraryError cls msg] for whatever a library
    call raises (a [requests] exception, an [ExpatError], ...).  All of them
    derive from [Exception]. *)
Inductive exn : Type :=
| ValidationError (response : pyval) (detail : string)
| LoginError
| ParsingError (msg : string)
| JSONError (msg : string)
| DownloadError
| ForwardingError
| AssertionError (msg : string)
| AttributeError (msg : string)
| TypeError (msg : string)
| KeyError (key : string)
| ValueError (msg : string)
| NotImplementedError (msg : string)
| LibraryError (cls msg : string).

(** [str(exc)] *)
Definition exn_str (e : exn) : string :=
  match e with
  | ValidationError _ d => d
  | LoginError | DownloadError | ForwardingError => ""
  | ParsingError m | JSONError m | AssertionError m | AttributeError m
  | TypeError m | ValueError m | NotImplementedError m => m
  | KeyError k => k
  | LibraryError _ m => m
  end.

Inductive result (A : Type) : Type :=
| Ok (a : A)
| Raise (e : exn).
Arguments Ok {A} a.
Arguments Raise {A} e.

Definition is_AttributeError (e : exn) : bool :=
  match e with AttributeError _ => true | _ => false end.
Definition is_AssertionError (e : exn) : bool :=
  match e with AssertionError _ => true | _ => false end.
Definition is_ValidationError (e : exn) : bool :=
  match e with ValidationError _ _ => true | _ => false end.

(** ** Strings *)

(** [needle in hay] on [str]. *)
Fixpoint contains (needle hay : string) : bool :=
  if String.prefix needle hay then true
  else match hay with
       | EmptyString => false
       | String _ rest => contains needle rest
       end.

(** [s.startswith(p)] *)
Definition startswith (s p : string) : bool := String.prefix p s.

(** [s.endswith(p)] for a one-character [p]. *)
Fixpoint endswith_char (s : string) (c : ascii) : bool :=
  match s with
  | EmptyString => false
  | String x EmptyString => Ascii.eqb x c
  | String _ rest => endswith_char rest c
  end.

Definition upper_ascii (c : ascii) : ascii :=
  let n := nat_of_ascii c in
  if (Nat.leb 97 n && Nat.leb n 122)%bool then ascii_of_nat (n - 32) else c.

(** [s.upper()] (ASCII letters). *)
Fixpoint upper (s : string) : string :=
  match s with
  | EmptyString => EmptyString
  | String c rest => String (upper_ascii c) (upper rest)
  end.

(** [re.sub(r' ', '', s)] *)
Fixpoint remove_spaces (s : string) : string :=
  match s with
  | EmptyString => EmptyString
  | String c rest =>
      if Ascii.eqb c " "%char then remove_spaces rest
      else String c (remove_spaces rest)
  end.

(** [posixpath.join(a, b)] for two components. *)
Definition path_join (a b : string) : string :=
  if startswith b "/" then b
  else if (String.eqb a "" || endswith_char a "/"%char)%bool then a ++ b
  else a ++ "/" ++ b.

(** ** Truthiness *)

Definition truthy (v : pyval) : bool :=
  match v with
  | PNone => false
  | PBool b => b
  | PInt z => negb (Z.eqb z 0)
  | PStr s => negb (String.eqb s "")
  | PList l => match l with [] => false | _ => true end
  | PDict m => negb (bool_decide (m = ∅))
  end.

(** Truthiness of an optional string ([None] or a [str]). *)
Definition truthy_str (o : option string) : bool :=
  match o with
  | Some s => negb (String.eqb s "")
  | None => false
  end.

(** [a or b] on optional strings. *)
Definition or_str (a b : option string) : option string :=
  if truthy_str a then a else b.

Definition opt_val (o : option string) : pyval :=
  match o with Some s => PStr s | None => PNone end.

(** ** The [re] fragment

    The three patterns of [voice.py] are sequences of literal characters,
    one-character classes under a greedy [+], and capture groups that do not
    nest.  [re_match] is the backtracking matcher anchored at the start of
    the subject; [re_search] scans for the leftmost start position, as
    [re.search] does. *)

Inductive cclass : Type :=
| CLit (c : ascii)      (* a literal character *)
| CDot                  (* [.]: anything but a newline *)
| CSpace                (* [\s] on ASCII: space, \t, \n, \v, \f, \r *)
| CNot (c : ascii).     (* [[^c]] *)

Definition cclass_matches (k : cclass) (x : ascii) : bool :=
  match k with
  | CLit c => Ascii.eqb x c
  | CDot => negb (Ascii.eqb x "010"%char)
  | CSpace =>
      let n := nat_of_ascii x in
      (Nat.eqb n 32 || (Nat.leb 9 n && Nat.leb n 13))%bool
  | CNot c => negb (Ascii.eqb x c)
  end.

Inductive re_item : Type :=
| ROne (k : cclass)
| RPlus (k : cclass)
| ROpen
| RClose.

Definition regex := list re_item.

(** Literal text as a run of [ROne (CLit _)]. *)
Fixpoint re_lit (s : string) : regex :=
  match s with
  | EmptyString => []
  | String c rest => ROne (CLit c) :: re_lit rest
  end.

(** Length of the longest prefix of [s] made of characters of class [k]. *)
Fixpoint span (k : cclass) (s : string) : nat :=
  match s with
  | EmptyString => O
  | String x rest => if cclass_matches k x then S (span k rest) else O
  end.

Fixpoint str_take (n : nat) (s : string) : string :=
  match n, s with
  | S n', String x rest => String x (str_take n' rest)
  | _, _ => EmptyString
  end.

Fixpoint str_drop (n : nat) (s : string) : string :=
  match n, s with
  | S n', String _ rest => str_drop n' rest
  | _, _ => s
  end.

(** Greedy choice: the first of [f n], [f (n-1)], ..., [f 1] that succeeds. *)
Fixpoint first_down {A} (f : nat -> option A) (n : nat) : option A :=
  match n with
  | O => None
  | S n' => match f n with
            | Some r => Some r
            | None => first_down f n'
            end
  end.

Definition record (opened : option string) (t : string) : option string :=
  match opened with
  | Some buf => Some (buf ++ t)
  | None => None
  end.

(** [opened] is the text captured so far by the group being matched (if
    one is open); [caps] are the groups already closed, in order. *)
Fixpoint re_match (p : regex) (s : string) (opened : option string)
    (caps : list string) : option (list string) :=
  match p with
  | [] => Some caps
  | ROpen :: p' => re_match p' s (Some "") caps
  | RClose :: p' =>
      re_match p' s None
        (caps ++ [match opened with Some b => b | None => "" end])
  | ROne k :: p' =>
      match s with
      | String x rest =>
          if cclass_matches k x
          then re_match p' rest (record opened (String x "")) caps
          else None
      | EmptyString => None
      end
  | RPlus k :: p' =>
      first_down
        (fun n => re_match p' (str_drop n s) (record opened (str_take n s)) caps)
        (span k s)
  end.

Fixpoint re_search (p : regex) (s : string) : option (list string) :=
  match re_match p s None [] with
  | Some caps => Some caps
  | None => match s with
            | EmptyString => None
            | String _ rest => re_search p rest
            end
  end.

(** The number of capture groups of a pattern. *)
Fixpoint groups (p : regex) : nat :=
  match p with
  | [] => O
  | RClose :: p' => S (groups p')
  | _ :: p' => groups p'
  end.

(** [m.group(i)] on the result of [re.search]: [None] has no [group]. *)
Definition group (m : option (list string)) (i : nat) : result string :=
  match m with
  | None => Raise (AttributeError "'NoneType' object has no attribute 'group'")
  | Some caps => match nth_error caps (Nat.pred i) with
                 | Some g => Ok g
                 | None => Raise (LibraryError "IndexError" "no such group")
                 end
  end.

Definition dq : string := String "034"%char "".

End Py.

(* ===================================================================== *)
(** * The libraries the client is written against                         *)
(* ===================================================================== *)

Module Lib.
Import Py.

(** ** A state and exception monad

    [S] is the mutable state a call can touch; a call either returns a value
    or raises, and in both cases leaves a state behind. *)

Definition M (S A : Type) : Type := S -> result A * S.

Definition ret {S A} (a : A) : M S A := fun s => (Ok a, s).
Definition raise {S A} (e : exn) : M S A := fun s => (Raise e, s).
Definition lift {S A} (r : result A) : M S A := fun s => (r, s).

Definition bind {S A B} (m : M S A) (k : A -> M S B) : M S B :=
  fun s => match m s with
           | (Ok a, s') => k a s'
           | (Raise e, s') => (Raise e, s')
           end.

(** [try: body / except <classes>: handler] *)
Definition try_except {S A} (body : M S A) (caught : exn -> bool)
    (handler : exn -> M S A) : M S A :=
  fun s => match body s with
           | (Ok a, s') => (Ok a, s')
           | (Raise e, s') => if caught e then handler e s' else (Raise e, s')
           end.

(** [assert c, msg] *)
Definition assert_ {S} (c : bool) (msg : string) : M S unit :=
  if c then ret tt else raise (AssertionError msg).

Notation "'do' x <- m ; k" := (bind m (fun x => k))
  (at level 10, x name, m at level 100, k at level 200).
Notation "'run' m ; k" := (bind m (fun _ => k))
  (at level 10, m at level 100, k at level 200).

(** ** [requests] *)

(** The [data] argument of a request: [None], a tuple or a [dict]. *)
Inductive reqdata : Type :=
| DNone
| DTuple (l : list pyval)
| DDict (m : gmap string pyval).

Definition reqdata_truthy (d : reqdata) : bool :=
  match d with
  | DNone => false
  | DTuple l => match l with [] => false | _ => true end
  | DDict m => negb (bool_decide (m = ∅))
  end.

Record Request : Type := mkRequest {
  req_method : string;
  req_url : string;
  req_data : reqdata;
  req_params : option (gmap string pyval);
  req_headers : option (gmap string pyval)
}.

Record Response : Type := mkResponse {
  resp_url : string;          (* [.url], after redirects *)
  resp_status : Z;            (* [.status_code] *)
  resp_text : string;         (* [.text] *)
  resp_content : string       (* [.content] *)
}.

(** [Response.raise_for_status()]: an [HTTPError] for 4xx and 5xx. *)
Definition is_error_status (r : Response) : bool :=
  ((400 <=? resp_status r) && (resp_status r <? 600))%bool.

Definition raise_for_status (r : Response) : result unit :=
  if is_error_status r
  then Raise (LibraryError "HTTPError" "error status")
  else Ok tt.

(** ** [xml.parsers.expat]: the handler calls a parse makes *)

Inductive xml_event : Type :=
| StartElement (name : string) (attrs : list (string * string))
| EndElement (name : string)
| CharacterData (data : string).

(** ** The environment

    What the client gets from outside its two modules.  The service answers
    a request knowing the requests made before it; a shell command likewise
    (the one-time password changes with time). *)
Record Env : Type := mkEnv {
  (* requests *)
  server : list Request -> Request -> result Response;
  response_read : Response -> result string;        (* [.read()] *)
  (* json, expat, dict *)
  json_loads : string -> result pyval;
  expat_parse : string -> list xml_event * option string;
      (* the handler calls, then the [ExpatError] message if the text is
         not well formed *)
  dict_of_iterable : pyval -> result (gmap string pyval);
      (* [dict(v)] for a [v] that is not a mapping *)
  (* googlevoice.settings and googlevoice.conf.config *)
  settings : string -> string;
  config_email : option string;
  config_password : option string;
  config_smsKey : option string;
  config_forwardingNumber : option string;
  config_phoneType : option string;
  (* console, shell, operating system *)
  input : string -> string;
  getpass : string -> string;
  b32decode_hex : string -> result string;
      (* [base64.b32decode(k, casefold=True).encode("hex")] *)
  shell_output : list string -> string -> string;
      (* [commands.getstatusoutput(cmd)[1]] after the commands run so far *)
  getcwd : string;
  open_wb : gmap string string -> string -> result unit;
      (* [open(fn, 'wb')] among the files present: it fails for a missing
         or unwritable directory *)
  file_write : string -> string -> option (exn * string)
      (* [fo.write(content)] on the file just opened: [None] when all of
         it is written, else the exception and what the file holds *)
}.

End Lib.

(* ===================================================================== *)
(** * googlevoice/util.py                                                 *)
(* ===================================================================== *)

Module Util.
Import Py Lib.

(** ** [validate_response] *)

(** [key in v] *)
Definition py_contains (key : string) (v : pyval) : result bool :=
  match v with
  | PDict m => Ok (bool_decide (is_Some (m !! key)))
  | PList l =>
      Ok (existsb (fun x => match x with
                            | PStr s => String.eqb s key
                            | _ => false
                            end) l)
  | PStr s => Ok (contains key s)
  | PNone | PBool _ | PInt _ => Raise (TypeError "argument is not iterable")
  end.

(** [v[key]] for a [str] key *)
Definition py_getitem (v : pyval) (key : string) : result pyval :=
  match v with
  | PDict m => match m !! key with
               | Some x => Ok x
               | None => Raise (KeyError key)
               end
  | PList _ | PStr _ => Raise (TypeError "indices must be integers")
  | PNone | PBool _ | PInt _ => Raise (TypeError "object is not subscriptable")
  end.

(** The asserted expression ['ok' in response and response['ok']]. *)
Definition ok_expression (response : pyval) : result bool :=
  match py_contains "ok" response with
  | Raise e => Raise e
  | Ok false => Ok false
  | Ok true => match py_getitem response "ok" with
               | Raise e => Raise e
               | Ok v => Ok (truthy v)
               end
  end.

(** Only the [AssertionError] is turned into a [ValidationError]. *)
Definition validate_response (response : pyval) : result unit :=
  match ok_expression response with
  | Raise e => Raise e
  | Ok true => Ok tt
  | Ok false => Raise (ValidationError response (exn_str (AssertionError "")))
  end.

Section WithEnv.
Variable E : Env.

(** [response.json()] decodes the body. *)
Definition response_json (r : Response) : result pyval :=
  json_loads E (resp_text r).

Definition load_and_validate (response : Response) : result unit :=
  match response_json response with
  | Raise e => Raise e
  | Ok v => validate_response v
  end.

End WithEnv.

(** ** [AttrDict] *)

(** What an attribute of an instance can be: a stored value, something the
    class defines (a method, by name), or a reference to another object. *)
Inductive attr_value : Type :=
| Stored (v : pyval)
| ClassAttr (name : string)
| Ref (label : string).

(** An instance of [AttrDict] (or of a subclass): the attributes assigned
    on the instance, the names its class and the bases of the class define,
    and the entries of the [dict] itself. *)
Record AttrDict : Type := mkAttrDict {
  inst : gmap string attr_value;
  klass : gset string;
  items : gmap string pyval
}.

(** [self[attr]] *)
Definition dict_getitem (d : gmap string pyval) (key : string) : result pyval :=
  match d !! key with
  | Some v => Ok v
  | None => Raise (KeyError key)
  end.

(** [AttrDict.__getattr__], on the entries of the [dict]. *)
Definition AttrDict_getattr (d : gmap string pyval) (attr : string) : result pyval :=
  if bool_decide (is_Some (d !! attr)) then dict_getitem d attr
  else Ok PNone.

(** Normal attribute lookup, [object.__getattribute__]. *)
Definition normal_lookup (d : AttrDict) (attr : string) : result attr_value :=
  match inst d !! attr with
  | Some v => Ok v
  | None => if bool_decide (attr ∈ klass d) then Ok (ClassAttr attr)
            else Raise (AttributeError attr)
  end.

(** Reading [d.attr]: [__getattr__] runs when normal lookup raises
    [AttributeError]. *)
Definition getattr (d : AttrDict) (attr : string) : result attr_value :=
  match normal_lookup d attr with
  | Ok v => Ok v
  | Raise (AttributeError _) =>
      match AttrDict_getattr (items d) attr with
      | Ok v => Ok (Stored v)
      | Raise e => Raise e
      end
  | Raise e => Raise e
  end.

(** ** [Phone], [Message], [Folder]

    Of these [AttrDict] subclasses the client uses the [dict] entries and
    the attributes assigned in [__init__]; the [voice] (and [folder])
    attribute refers to the one [Voice] instance of the model. *)

Record Phone : Type := mkPhone { phone_items : gmap string pyval }.

Record Message : Type := mkMessage {
  message_id : string;                       (* [self.id = id] *)
  message_items : gmap string pyval
}.

Record Folder : Type := mkFolder {
  folder_name : string;                      (* [self.name = name] *)
  folder_items : gmap string pyval
}.

(** A message argument: a [Message] instance or its SHA1 identifier. *)
Inductive msg_arg : Type :=
| MsgObject (m : Message)
| MsgId (id : string).

(** [if isinstance(msg, util.Message): msg = msg.id] *)
Definition msg_id_of (msg : msg_arg) : string :=
  match msg with
  | MsgObject m => message_id m
  | MsgId id => id
  end.

Section Feed.
Variable E : Env.

(** [Folder.__init__]: [dict.__init__(data)]. *)
Definition Folder_init (name : string) (data : pyval) : result Folder :=
  match data with
  | PDict m => Ok (mkFolder name m)
  | _ => match dict_of_iterable E data with
         | Ok m => Ok (mkFolder name m)
         | Raise e => Raise e
         end
  end.

(** ** [XMLParser] *)

Record XMLParser : Type := mkXMLParser {
  attr : option string;
  json : string;
  html : string;
  name : string
}.

Definition XMLParser_init (page : string) : XMLParser :=
  mkXMLParser None "" "" page.

Definition set_attr (a : option string) (p : XMLParser) : XMLParser :=
  mkXMLParser a (json p) (html p) (name p).

(** [getattr(self, a)] and [setattr(self, a, v)] for the attribute named by
    [self.attr]; [attr_is_tag] below shows that it is ['json'] or ['html']. *)
Definition getattr_named (p : XMLParser) (a : string) : string :=
  if String.eqb a "json" then json p
  else if String.eqb a "html" then html p
  else "".

Definition setattr_named (p : XMLParser) (a : string) (v : string) : XMLParser :=
  if String.eqb a "json" then mkXMLParser (attr p) v (html p) (name p)
  else if String.eqb a "html" then mkXMLParser (attr p) (json p) v (name p)
  else p.

Definition start_element (p : XMLParser) (nm : string)
    (attrs : list (string * string)) : XMLParser :=
  if (String.eqb nm "json" || String.eqb nm "html")%bool
  then set_attr (Some nm) p
  else p.

Definition end_element (p : XMLParser) (nm : string) : XMLParser :=
  set_attr None p.

Definition char_data (p : XMLParser) (data : string) : XMLParser :=
  match attr p with
  | Some a =>
      if (negb (String.eqb a "") && negb (String.eqb data ""))%bool
      then setattr_named p a (getattr_named p a ++ data)
      else p
  | None => p
  end.

(** The handler an event is dispatched to. *)
Definition handle (p : XMLParser) (ev : xml_event) : XMLParser :=
  match ev with
  | StartElement nm attrs => start_element p nm attrs
  | EndElement nm => end_element p nm
  | CharacterData data => char_data p data
  end.

(** [parser.Parse(data, 1)] with the three handlers installed. *)
Definition feed (p : XMLParser) (events : list xml_event) : XMLParser :=
  fold_left handle events p.

(** The [data] property. *)
Definition data (p : XMLParser) : result pyval :=
  match json_loads E (json p) with
  | Ok v => Ok v
  | Raise exc => Raise (JSONError (exn_str exc))
  end.

(** The [folder] property. *)
Definition folder (p : XMLParser) : result Folder :=
  match data p with
  | Ok v => Folder_init (name p) v
  | Raise e => Raise e
  end.

(** [XMLParser.__call__]: the outcome, the parser afterwards (it is
    mutated in place) and the state [datafunc] leaves behind. *)
Definition XMLParser_call {S} (p : XMLParser) (datafunc : M S string) (s : S)
    : result Folder * XMLParser * S :=
  let p0 := mkXMLParser (attr p) "" "" (name p) in
  match datafunc s with
  | (Raise exc, s') => (Raise (ParsingError (exn_str exc)), p0, s')
  | (Ok text, s') =>
      let (events, failure) := expat_parse E text in
      let p1 := feed p0 events in
      match failure with
      | Some msg => (Raise (ParsingError msg), p1, s')
      | None => (folder p1, p1, s')
      end
  end.

End Feed.

End Util.

(* ===================================================================== *)
(** * googlevoice/voice.py                                                *)
(* ===================================================================== *)

Module VoiceM.
Import Py Lib Util.

(** The attributes [login], [special] and [contacts] keep on the instance.
    [_special] may be absent, [None] or a string. *)
Record Voice : Type := mkVoice {
  _special : option (option string);
  _contacts : option Folder
}.

(** The instance together with what its methods act on outside it. *)
Record State : Type := mkState {
  voice : Voice;
  http_log : list Request;          (* requests sent so far, oldest first *)
  shell_log : list string;          (* shell commands run so far *)
  slept : Z;                        (* seconds spent in [time.sleep] *)
  printed : list string;            (* lines printed *)
  files : gmap string string        (* files written, by path *)
}.

Definition set_voice (v : Voice) (s : State) : State :=
  mkState v (http_log s) (shell_log s) (slept s) (printed s) (files s).

Definition set_special (x : option (option string)) (s : State) : State :=
  set_voice (mkVoice x (_contacts (voice s))) s.

Definition set_contacts (x : option Folder) (s : State) : State :=
  set_voice (mkVoice (_special (voice s)) x) s.

(** [getattr(self, '_special', None)] *)
Definition stored_special (s : State) : option string :=
  match _special (voice s) with
  | Some x => x
  | None => None
  end.

Definition dict_of (l : list (string * pyval)) : gmap string pyval :=
  list_to_map l.

(** A double-quoted attribute value of the patterns below. *)
Definition quoted (s : string) : string := dq ++ s ++ dq.

(** [('_rnr_se':) '(.+)'] *)
Definition special_pattern : regex :=
  ([ROpen] ++ re_lit "'_rnr_se':" ++ [RClose] ++ re_lit " '"
   ++ [ROpen; RPlus CDot; RClose] ++ re_lit "'")%list.

(** The [gxf] pattern of [login]: [type=], quoted [hidden], [\s+], [name=],
    quoted [gxf], [\s+], [value=], then [(.+)] between double quotes. *)
Definition gxf_pattern : regex :=
  (re_lit "type=" ++ re_lit (quoted "hidden") ++ [RPlus CSpace]
   ++ re_lit "name=" ++ re_lit (quoted "gxf") ++ [RPlus CSpace]
   ++ re_lit "value=" ++ re_lit dq ++ [ROpen; RPlus CDot; RClose]
   ++ re_lit dq)%list.

(** The [smsToken] pattern of [login]: [name=], quoted [smsToken], [\s+],
    [value=], then a group of one or more characters other than a double
    quote, between double quotes. *)
Definition smsToken_pattern : regex :=
  (re_lit "name=" ++ re_lit (quoted "smsToken") ++ [RPlus CSpace]
   ++ re_lit "value=" ++ re_lit dq
   ++ [ROpen; RPlus (CNot "034"%char); RClose] ++ re_lit dq)%list.

Definition invalid_code_marker : string :=
  "The code you entered didn&#39;t verify.".

Definition self : M State Voice := fun s => (Ok (voice s), s).

Definition inspect {A} (a : A) : {b | a = b} := exist _ a eq_refl.

Section WithEnv.
Variable E : Env.

(** ** Helper methods *)

(** [self.session.request(method, url, data=, params=, headers=)]: the
    request reaches the service, which answers or fails. *)
Definition session_request (method url : string) (data : reqdata)
    (params headers : option (gmap string pyval)) : M State Response :=
  fun s =>
    let rq := mkRequest method url data params headers in
    (server E (http_log s) rq,
     mkState (voice s) (http_log s ++ [rq]) (shell_log s) (slept s)
             (printed s) (files s)).

(** [self.session.get(url)] *)
Definition session_get (url : string) : M State Response :=
  session_request "GET" url DNone None None.

Definition resolve_page (page : string) : string :=
  settings E (upper page).

(** [terms or None] *)
Definition or_None (terms : option (gmap string pyval))
    : option (gmap string pyval) :=
  match terms with
  | Some m => if bool_decide (m = ∅) then None else Some m
  | None => None
  end.

Definition do_url (url : string) (data : reqdata)
    (headers terms : option (gmap string pyval)) : M State Response :=
  let method := if reqdata_truthy data then "POST" else "GET" in
  session_request method url data (or_None terms) headers.

Definition do_page (page : string) (data : reqdata)
    (headers terms : option (gmap string pyval)) : M State Response :=
  do_url (resolve_page page) data headers terms.

(** ** The [special] property *)

Definition special : M State (option string) :=
  fun s =>
    if truthy_str (stored_special s) then (Ok (stored_special s), s)
    else
      (do resp <- session_get (settings E "INBOX");
       do sp <- try_except
                  (do g <- lift (group (re_search special_pattern (resp_text resp)) 2);
                   ret (Some g))
                  is_AttributeError
                  (fun _ => ret None);
       fun s' => (Ok sp, set_special (Some sp) s')) s.

(** [Add self.special to the outbound request data] *)
Definition do_special_page (page : string) (data : reqdata)
    (headers terms : option (gmap string pyval)) : M State Response :=
  do sp <- special;
  run assert_ (truthy_str sp) "You must login before using this page";
  do data' <- match data with
              | DTuple l =>
                  do sp' <- special;
                  ret (DTuple (l ++ [PStr "_rnr_se"; opt_val sp']))
              | DDict m =>
                  do sp' <- special;
                  ret (DDict (<["_rnr_se" := opt_val sp']> m))
              | DNone => ret DNone
              end;
  do_page page data' headers terms.

(** [data.update(kwargs)], then the validated request. *)
Definition validate_special_page (page : string) (data kwargs : gmap string pyval)
    : M State unit :=
  let data := kwargs ∪ data in
  do resp <- do_special_page page (DDict data) (Some ∅) (Some ∅);
  lift (load_and_validate E resp).

(** [Return an XMLParser instance generated for a given page]: the parser
    and its [getter]. *)
Definition getter (page : string) (data : reqdata)
    (headers terms : option (gmap string pyval)) : M State string :=
  let page_name := "XML_" ++ upper page in
  do resp <- do_special_page page_name data headers terms;
  ret (resp_text resp).

Definition get_xml_page (page : string) (data : reqdata)
    (headers terms : option (gmap string pyval)) : XMLParser * M State string :=
  (XMLParser_init page, getter page data headers terms).

Definition messages_post (page : string) (msgs : list msg_arg)
    (data : gmap string pyval) : M State Response :=
  if negb (Nat.eqb (List.length msgs) 1)
  then raise (NotImplementedError "Only supports one message")
  else
    let data :=
      fold_left (fun d msg => <["messages" := PStr (msg_id_of msg)]> d) msgs data in
    do_special_page page (DDict data) (Some ∅) (Some ∅).

(** ** The SMS second factor *)

Definition print_line (line : string) : M State unit :=
  fun s => (Ok tt, mkState (voice s) (http_log s) (shell_log s) (slept s)
                           (printed s ++ [line]) (files s)).

Definition sleep (seconds : Z) : M State unit :=
  fun s => (Ok tt, mkState (voice s) (http_log s) (shell_log s)
                           (slept s + seconds) (printed s) (files s)).

(** [commands.getstatusoutput(cmd)[1]] *)
Definition shell (cmd : string) : M State string :=
  fun s => (Ok (shell_output E (shell_log s) cmd),
            mkState (voice s) (http_log s) (shell_log s ++ [cmd]) (slept s)
                    (printed s) (files s)).

Definition oathtoolAuth (smsKey : string) : M State string :=
  do smsPin <- shell ("oathtool --totp " ++ smsKey);
  do resp <- do_page "smsauth" (DDict (dict_of [("smsUserPin", PStr smsPin)]))
               None None;
  lift (response_read E resp).

Definition retry_message (sleep_seconds : Z) (try_count : nat) : string :=
  "invalid code, retrying after " ++ pretty sleep_seconds
  ++ " seconds (attempt " ++ pretty try_count ++ ")".

(** The loop condition of [__smsAuth]. *)
Definition must_retry (content : string) (try_count : nat) : bool :=
  (contains invalid_code_marker content && Nat.ltb try_count 5)%bool.

(** The [while] loop of [__smsAuth], entered with the current [try_count]
    and [content]. *)
Equations? retry_loop (smsKey : string) (try_count : nat) (content : string)
    (s : State) : result string * State by wf (5 - try_count)%nat lt :=
  retry_loop smsKey try_count content s with inspect (must_retry content try_count) := {
    | exist _ true Hloop
        with (run print_line (retry_message 10 (try_count + 1));
              run sleep 10;
              oathtoolAuth smsKey) s := {
        | (Ok content', s') => retry_loop smsKey (try_count + 1) content' s'
        | (Raise e, s') => (Raise e, s') }
    | exist _ false _ => (Ok content, s) }.
Proof.
  unfold must_retry in Hloop.
  apply andb_true_iff in Hloop as [_ Hlt].
  apply Nat.ltb_lt in Hlt. lia.
Qed.

Definition smsAuth (smsKey : option string) : M State string :=
  let smsKey := match smsKey with
                | None => config_smsKey E
                | Some k => Some k
                end in
  match smsKey with
  | None =>
      let smsPin := getpass E "SMS PIN: " in
      do resp <- do_page "smsauth" (DDict (dict_of [("smsUserPin", PStr smsPin)]))
                   None None;
      lift (response_read E resp)
  | Some k =>
      do smsKey <- lift (b32decode_hex E (remove_spaces k));
      do content <- oathtoolAuth smsKey;
      retry_loop smsKey 1 content
  end.

(** ** [login] and [logout] *)

(** [a or b] where [b] is a string. *)
Definition or_else (a : option string) (b : string) : string :=
  match a with
  | Some x => if String.eqb x "" then b else x
  | None => b
  end.

(** The dictionary posted with the credentials. *)
Definition credentials (email passwd gxf : string) : reqdata :=
  DDict (dict_of [("Email", PStr email); ("Passwd", PStr passwd);
                  ("gxf", PStr gxf)]).

(** The body of [if result.url.startswith(SMSAUTH)]. *)
Definition second_factor (smsKey : option string) : M State unit :=
  do content <- smsAuth smsKey;
  try_except
    (do smsToken <- lift (group (re_search smsToken_pattern content) 1);
     run do_page "login"
           (DDict (dict_of [("smsToken", PStr smsToken);
                            ("service", PStr "grandcentral")]))
           None None;
     ret tt)
    is_AttributeError
    (fun _ => raise LoginError).

(** The closing [try: assert self.special]. *)
Definition confirm_session : M State unit :=
  try_except
    (do sp <- special; assert_ (truthy_str sp) "")
    (fun e => (is_AssertionError e || is_AttributeError e)%bool)
    (fun _ => raise LoginError).

Definition login (email passwd smsKey : option string) : M State Voice :=
  fun s0 =>
    if truthy_str (stored_special s0) then self s0
    else
      (let email :=
         or_else (or_str email (config_email E)) (input E "Email address: ") in
       let passwd :=
         or_else (or_str passwd (config_password E)) (getpass E "Password: ") in
       do page <- do_page "login" DNone None None;
       let content := resp_text page in
       do gxf <- lift (group (re_search gxf_pattern content) 1);
       do result <- do_page "login_post" (credentials email passwd gxf) None None;
       run (if startswith (resp_url result) (settings E "SMSAUTH")
            then second_factor smsKey
            else ret tt);
       run confirm_session;
       self) s0.

(** [del self._special] *)
Definition del_special : M State unit :=
  fun s => match _special (voice s) with
           | Some _ => (Ok tt, set_special None s)
           | None => (Raise (AttributeError "_special"), s)
           end.

Definition logout : M State Voice :=
  run do_page "logout" DNone None None;
  run del_special;
  do sp <- special;
  run assert_ (match sp with None => true | Some _ => false end) "";
  self.

(** ** Actions *)

Definition call (outgoingNumber : string)
    (forwardingNumber phoneType subscriberNumber : option string) : M State unit :=
  let forwardingNumber := match forwardingNumber with
                          | None => config_forwardingNumber E
                          | Some n => Some n
                          end in
  let phoneType := match phoneType with
                   | None => config_phoneType E
                   | Some t => Some t
                   end in
  validate_special_page "call"
    (dict_of [("outgoingNumber", PStr outgoingNumber);
              ("forwardingNumber", opt_val forwardingNumber);
              ("subscriberNumber", PStr (or_else subscriberNumber "undefined"));
              ("phoneType", opt_val phoneType);
              ("remember", PStr "1")])
    ∅.

Definition cancel (outgoingNumber forwardingNumber : option string) : M State unit :=
  validate_special_page "cancel"
    (dict_of [("outgoingNumber", PStr (or_else outgoingNumber "undefined"));
              ("forwardingNumber", PStr (or_else forwardingNumber "undefined"));
              ("cancelType", PStr "C2C")])
    ∅.

Definition send_sms (phoneNumber text : string) : M State unit :=
  validate_special_page "sms"
    (dict_of [("phoneNumber", PStr phoneNumber); ("text", PStr text)]) ∅.

(** The methods return nothing: the response of [__messages_post] is dropped. *)
Definition archive (msg : msg_arg) (flag : pyval) : M State unit :=
  run messages_post "archive" [msg] (dict_of [("archive", flag)]);
  ret tt.

Definition delete (msg : msg_arg) (trash : pyval) : M State unit :=
  run messages_post "delete" [msg] (dict_of [("trash", trash)]);
  ret tt.

(** [Message.delete], [Message.star], [Message.mark] *)
Definition Message_delete (m : Message) (trash : pyval) : M State unit :=
  run messages_post "delete" [MsgId (message_id m)] (dict_of [("trash", trash)]);
  ret tt.

Definition Message_star (m : Message) (star : pyval) : M State unit :=
  run messages_post "star" [MsgId (message_id m)] (dict_of [("star", star)]);
  ret tt.

Definition Message_mark (m : Message) (read : pyval) : M State unit :=
  run messages_post "mark" [MsgId (message_id m)] (dict_of [("read", read)]);
  ret tt.

(** [Phone.__call_forwarding], [Phone.enable], [Phone.disable] *)
Definition Phone_call_forwarding (ph : Phone) (enabled : string) : M State unit :=
  do id <- lift (AttrDict_getattr (phone_items ph) "id");
  validate_special_page "default_forward"
    (dict_of [("enabled", PStr enabled); ("phoneId", id)]) ∅.

Definition Phone_enable (ph : Phone) : M State unit :=
  Phone_call_forwarding ph "1".

Definition Phone_disable (ph : Phone) : M State unit :=
  Phone_call_forwarding ph "0".

(** ** [download] *)

(** The files once [fn] holds [content]. *)
Definition set_file (fn content : string) (s : State) : State :=
  mkState (voice s) (http_log s) (shell_log s) (slept s) (printed s)
          (<[fn := content]> (files s)).

(** [with open(fn, 'wb') as fo: fo.write(content)].  When the file cannot
    be opened the exception comes out and no file is touched; once open,
    the file holds what was written, all of [content] or what a failing
    write left. *)
Definition write_file (fn content : string) : M State unit :=
  fun s =>
    match open_wb E (files s) fn with
    | Raise e => (Raise e, s)
    | Ok _ =>
        match file_write E fn content with
        | None => (Ok tt, set_file fn content s)
        | Some (e, partial) => (Raise e, set_file fn partial s)
        end
    end.

Definition download (msg : msg_arg) (adir : option string) : M State string :=
  let msg := msg_id_of msg in
  let adir := match adir with
              | None => getcwd E
              | Some d => d
              end in
  let url := resolve_page "download" ++ msg in
  do resp <- try_except
               (do resp <- do_url url DNone None None;
                run lift (raise_for_status resp);
                ret resp)
               (fun _ => true)
               (fun _ => raise DownloadError);
  let fn := path_join adir (msg ++ ".mp3") in
  run write_file fn (resp_content resp);
  ret fn.

(** [Message.download] *)
Definition Message_download (m : Message) (adir : option string) : M State string :=
  download (MsgObject m) adir.

(** ** [contacts], [search] *)

(** Calling the parser of a page made on the spot. *)
Definition call_xml_page (page : string) (data : reqdata)
    (headers terms : option (gmap string pyval)) : M State Folder :=
  fun s =>
    let (parser, datafunc) := get_xml_page page data headers terms in
    let '(r, _, s') := XMLParser_call E parser datafunc s in
    (r, s').

Definition contacts : M State Folder :=
  fun s =>
    match _contacts (voice s) with
    | Some f => (Ok f, s)
    | None =>
        (do f <- call_xml_page "contacts" DNone (Some ∅) (Some ∅);
         fun s' => (Ok f, set_contacts (Some f) s')) s
    end.

Definition search (query : string) : M State Folder :=
  call_xml_page "search" DNone (Some ∅) (Some (dict_of [("q", PStr query)])).

(** ** The action endpoints, collected

    One constructor per public action, with its arguments; [perform] is the
    method, [page_of] the page it posts to and [caller_data] the dictionary
    the method hands to the helper. *)
Inductive endpoint : Type :=
| EpCall (outgoingNumber : string)
         (forwardingNumber phoneType subscriberNumber : option string)
| EpCancel (outgoingNumber forwardingNumber : option string)
| EpSendSms (phoneNumber text : string)
| EpArchive (msg : msg_arg) (flag : pyval)
| EpDelete (msg : msg_arg) (trash : pyval)
| EpMessageDelete (m : Message) (trash : pyval)
| EpMessageStar (m : Message) (star : pyval)
| EpMessageMark (m : Message) (read : pyval)
| EpPhoneEnable (ph : Phone)
| EpPhoneDisable (ph : Phone).

Definition perform (ep : endpoint) : M State unit :=
  match ep with
  | EpCall o f t n => call o f t n
  | EpCancel o f => cancel o f
  | EpSendSms n t => send_sms n t
  | EpArchive m a => archive m a
  | EpDelete m t => delete m t
  | EpMessageDelete m t => Message_delete m t
  | EpMessageStar m x => Message_star m x
  | EpMessageMark m r => Message_mark m r
  | EpPhoneEnable ph => Phone_enable ph
  | EpPhoneDisable ph => Phone_disable ph
  end.

Definition page_of (ep : endpoint) : string :=
  match ep with
  | EpCall _ _ _ _ => "call"
  | EpCancel _ _ => "cancel"
  | EpSendSms _ _ => "sms"
  | EpArchive _ _ => "archive"
  | EpDelete _ _ | EpMessageDelete _ _ => "delete"
  | EpMessageStar _ _ => "star"
  | EpMessageMark _ _ => "mark"
  | EpPhoneEnable _ | EpPhoneDisable _ => "default_forward"
  end.

Definition phone_id (ph : Phone) : pyval :=
  match phone_items ph !! "id" with
  | Some v => v
  | None => PNone
  end.

Definition caller_data (ep : endpoint) : gmap string pyval :=
  match ep with
  | EpCall o f t n =>
      dict_of [("outgoingNumber", PStr o);
               ("forwardingNumber",
                opt_val (match f with None => config_forwardingNumber E | _ => f end));
               ("subscriberNumber", PStr (or_else n "undefined"));
               ("phoneType",
                opt_val (match t with None => config_phoneType E | _ => t end));
               ("remember", PStr "1")]
  | EpCancel o f =>
      dict_of [("outgoingNumber", PStr (or_else o "undefined"));
               ("forwardingNumber", PStr (or_else f "undefined"));
               ("cancelType", PStr "C2C")]
  | EpSendSms n t => dict_of [("phoneNumber", PStr n); ("text", PStr t)]
  | EpArchive m a => dict_of [("messages", PStr (msg_id_of m)); ("archive", a)]
  | EpDelete m t => dict_of [("messages", PStr (msg_id_of m)); ("trash", t)]
  | EpMessageDelete m t => dict_of [("messages", PStr (message_id m)); ("trash", t)]
  | EpMessageStar m x => dict_of [("messages", PStr (message_id m)); ("star", x)]
  | EpMessageMark m r => dict_of [("messages", PStr (message_id m)); ("read", r)]
  | EpPhoneEnable ph => dict_of [("enabled", PStr "1"); ("phoneId", phone_id ph)]
  | EpPhoneDisable ph => dict_of [("enabled", PStr "0"); ("phoneId", phone_id ph)]
  end.

(** The endpoints that go through [__validate_special_page]; the others go
    through [__messages_post]. *)
Definition validated (ep : endpoint) : bool :=
  match ep with
  | EpCall _ _ _ _ | EpCancel _ _ | EpSendSms _ _
  | EpPhoneEnable _ | EpPhoneDisable _ => true
  | _ => false
  end.

(** The request an endpoint sends when the session token is [sp]. *)
Definition endpoint_request (ep : endpoint) (sp : option string) : Request :=
  mkRequest "POST" (resolve_page (page_of ep))
    (DDict (<["_rnr_se" := opt_val sp]> (caller_data ep))) None (Some ∅).

(** A JSON object with a truthy ['ok'] field. *)
Definition has_truthy_ok (m : gmap string pyval) : bool :=
  match m !! "ok" with
  | Some v => truthy v
  | None => false
  end.

End WithEnv.
End VoiceM.

(* ===================================================================== *)
(** * Feed documents and what a parse is expected to extract              *)
(* ===================================================================== *)

Module FeedSpec.
Import Py Lib Util.

(** A well-formed document, as a tree. *)
Inductive node : Type :=
| Text (s : string)
| Element (name : string) (attrs : list (string * string)) (children : list node).

(** The handler calls expat makes for a tree, in document order. *)
Fixpoint events_of (n : node) : list xml_event :=
  match n with
  | Text s => [CharacterData s]
  | Element nm attrs children =>
      (StartElement nm attrs :: flat_map events_of children ++ [EndElement nm])%list
  end.

Definition is_text (n : node) : bool :=
  match n with Text _ => true | Element _ _ _ => false end.

(** The text lying directly inside the elements named [tag]. *)
Fixpoint text_inside (tag : string) (n : node) : string :=
  match n with
  | Text _ => ""
  | Element nm _ children =>
      fold_right
        (fun child acc =>
           (match child with
            | Text s => if String.eqb nm tag then s else ""
            | Element _ _ _ => text_inside tag child
            end) ++ acc)
        "" children
  end.

(** The text lying anywhere below an element named [tag]. *)
Fixpoint text_below (tag : string) (inside : bool) (n : node) : string :=
  match n with
  | Text s => if inside then s else ""
  | Element nm _ children =>
      fold_right
        (fun child acc =>
           text_below tag (inside || String.eqb nm tag)%bool child ++ acc)
        "" children
  end.

(** The element state of the extractor, from the tags alone: a ['json'] or
    ['html'] start tag selects that attribute, any end tag deselects, and
    nothing else changes the state. *)
Definition state_after (st : option string) (ev : xml_event) : option string :=
  match ev with
  | StartElement nm _ =>
      if (String.eqb nm "json" || String.eqb nm "html")%bool then Some nm else st
  | EndElement _ => None
  | CharacterData _ => st
  end.

Definition selects (st : option string) (tag : string) : bool :=
  match st with
  | Some a => String.eqb a tag
  | None => false
  end.

(** The text a single event adds to the attribute [tag]. *)
Definition added (tag : string) (st : option string) (ev : xml_event) : string :=
  match ev with
  | CharacterData d => if selects st tag then d else ""
  | _ => ""
  end.

(** The state [self.attr] is always one of the two tags or [None]. *)
Definition attr_is_tag (st : option string) : Prop :=
  st = None \/ st = Some "json" \/ st = Some "html".

(** The character data reported while the state selects [tag]. *)
Fixpoint extracted (tag : string) (st : option string) (events : list xml_event)
    : string :=
  match events with
  | [] => ""
  | ev :: rest =>
      (match ev with
       | CharacterData d => if selects st tag then d else ""
       | _ => ""
       end) ++ extracted tag (state_after st ev) rest
  end.

Definition is_tag (nm : string) : bool :=
  (String.eqb nm "json" || String.eqb nm "html")%bool.

(** The text of the children that are text nodes, in order. *)
Definition own_text (children : list node) : string :=
  fold_right (fun child acc =>
                (match child with Text s => s | Element _ _ _ => "" end) ++ acc)
             "" children.

(** A feed as the service sends it: a root that is neither [json] nor
    [html], and under it elements whose content is character data only. *)
Definition flat_child (child : node) : bool :=
  match child with
  | Text _ => true
  | Element _ _ grand => forallb is_text grand
  end.

Definition flat_feed (doc : node) : bool :=
  match doc with
  | Text _ => false
  | Element nm _ children => (negb (is_tag nm) && forallb flat_child children)%bool
  end.

(** [<response><json>a<b/>c</json></response>] *)
Definition nested_doc : node :=
  Element "response" []
    [Element "json" [] [Text "a"; Element "b" [] []; Text "c"]].

End FeedSpec.

(* ===================================================================== *)
(** * Vocabulary for the statements about voice.py                        *)
(* ===================================================================== *)

Module VoiceSpec.
Import Py Lib Util VoiceM.

Section WithEnv.
Variable E : Env.

(** The state after sending [rq]. *)
Definition sent (rq : Request) (s : State) : State :=
  mkState (voice s) (http_log s ++ [rq]) (shell_log s) (slept s)
          (printed s) (files s).

(** The state after writing [content] to the file [fn]. *)
Definition wrote (fn content : string) (s : State) : State :=
  mkState (voice s) (http_log s) (shell_log s) (slept s) (printed s)
          (<[fn := content]> (files s)).

(** The request [download] makes for the message [id], and the path it
    writes to. *)
Definition download_request (id : string) : Request :=
  mkRequest "GET" (resolve_page E "download" ++ id) DNone None None.

Definition download_path (id : string) (adir : option string) : string :=
  path_join (match adir with None => getcwd E | Some d => d end) (id ++ ".mp3").

(** The request of one authentication attempt. *)
Definition attempt_request (pin : string) : Request :=
  mkRequest "POST" (resolve_page E "smsauth")
    (DDict (dict_of [("smsUserPin", PStr pin)])) None None.

(** The state after running the shell command [cmd]. *)
Definition shell_ran (cmd : string) (s : State) : State :=
  mkState (voice s) (http_log s) (shell_log s ++ [cmd]) (slept s)
          (printed s) (files s).

(** What [__do_special_page] raises without a session. *)
Definition login_required : exn :=
  AssertionError "You must login before using this page".

(** The request the [special] property makes. *)
Definition inbox_request : Request :=
  mkRequest "GET" (settings E "INBOX") DNone None None.

(** What the [special] property makes of the inbox page. *)
Definition special_of_page (text : string) : option string :=
  match re_search special_pattern text with
  | Some caps => nth_error caps 1
  | None => None
  end.

(** [content] is what reading the answer to the last request of [log]
    gave. *)
Definition last_response_content (log : list Request) (content : string) : Prop :=
  exists pre rq resp,
    log = (pre ++ [rq])%list
    /\ server E pre rq = Ok resp
    /\ response_read E resp = Ok content.

(** One authentication attempt: a POST to the SMS form. *)
Definition is_attempt (rq : Request) : Prop :=
  req_method rq = "POST" /\ req_url rq = resolve_page E "smsauth".

(** The key [__smsAuth] works with: the argument, else the configured one. *)
Definition supplied_key (smsKey : option string) : option string :=
  match smsKey with
  | None => config_smsKey E
  | Some k => Some k
  end.

(** The service answers every request. *)
Definition always_answers : Prop :=
  forall log rq, exists resp, server E log rq = Ok resp.

(** The credentials [login] posts. *)
Definition login_email (email : option string) : string :=
  or_else (or_str email (config_email E)) (input E "Email address: ").
Definition login_passwd (passwd : option string) : string :=
  or_else (or_str passwd (config_password E)) (getpass E "Password: ").

Definition smsToken_data (smsToken : string) : reqdata :=
  DDict (dict_of [("smsToken", PStr smsToken); ("service", PStr "grandcentral")]).

(** The second factor is asked for after the credentials were posted (the
    state is then [s2]) and no [smsToken] is found in the page it ends on. *)
Definition token_missing (smsKey : option string) (result : Response)
    (s2 : State) : Prop :=
  startswith (resp_url result) (settings E "SMSAUTH") = true
  /\ exists content s3,
       smsAuth E smsKey s2 = (Ok content, s3)
       /\ re_search smsToken_pattern content = None.

(** The authentication sequence runs to its end, leaving the state [s4]. *)
Definition sequence_completes (smsKey : option string) (result : Response)
    (s2 s4 : State) : Prop :=
  (startswith (resp_url result) (settings E "SMSAUTH") = false /\ s4 = s2)
  \/ (startswith (resp_url result) (settings E "SMSAUTH") = true
      /\ exists content s3 smsToken resp,
           smsAuth E smsKey s2 = (Ok content, s3)
           /\ group (re_search smsToken_pattern content) 1 = Ok smsToken
           /\ do_page E "login" (smsToken_data smsToken) None None s3
              = (Ok resp, s4)).

(** After the sequence, the session token read off the inbox page is
    falsy. *)
Definition special_falsy_after (smsKey : option string) (result : Response)
    (s2 : State) : Prop :=
  exists s4 sp s5,
    sequence_completes smsKey result s2 s4
    /\ special E s4 = (Ok sp, s5)
    /\ truthy_str sp = false.

(** After the sequence, the session token read off the inbox page is
    truthy; [s'] is the state this reading leaves. *)
Definition special_truthy_after (smsKey : option string) (result : Response)
    (s2 s' : State) : Prop :=
  exists s4 sp,
    sequence_completes smsKey result s2 s4
    /\ special E s4 = (Ok sp, s')
    /\ truthy_str sp = true.

End WithEnv.

End VoiceSpec.

(* ===================================================================== *)
(** * A concrete service, for evaluating the client                       *)
(* ===================================================================== *)

Module Scenario.
Import Py Lib Util VoiceM FeedSpec.

Definition url_of (page : string) : string := "https://voice.example/" ++ page.

(** The inbox page of a signed-in account. *)
Definition inbox_page : string := "var _gcData = { '_rnr_se': 'TOKEN' };".

(** A sign-in form carrying the hidden [gxf] field, and one without it. *)
Definition login_form : string :=
  "<input type=" ++ quoted "hidden" ++ " name=" ++ quoted "gxf"
  ++ " value=" ++ quoted "GXF" ++ ">".
Definition login_form_without_gxf : string := "<html>Sign in</html>".

(** Bodies of action responses. *)
Definition accepted : string := "{" ++ quoted "ok" ++ ": true}".
Definition refused : string := "{" ++ quoted "ok" ++ ": false}".

(** A contacts feed and its JSON payload. *)
Definition contacts_json : string := "{" ++ quoted "totalSize" ++ ": 0}".
Definition contacts_feed : string :=
  "<response><json>" ++ contacts_json ++ "</json><html>x</html></response>".

Definition sms_challenge : string :=
  "<input name=" ++ quoted "smsToken" ++ " value=" ++ quoted "SMSTOKEN" ++ ">".

Definition demo_json_loads (s : string) : result pyval :=
  if String.eqb s accepted then Ok (PDict {[ "ok" := PBool true ]})
  else if String.eqb s refused then Ok (PDict {[ "ok" := PBool false ]})
  else if String.eqb s contacts_json then Ok (PDict {[ "totalSize" := PInt 0 ]})
  else Raise (ValueError "No JSON object could be decoded").

(** The text of [nested_doc]. *)
Definition nested_feed : string := "<response><json>a<b/>c</json></response>".

Definition demo_expat_parse (s : string) : list xml_event * option string :=
  if String.eqb s contacts_feed
  then ([StartElement "response" [];
         StartElement "json" []; CharacterData contacts_json; EndElement "json";
         StartElement "html" []; CharacterData "x"; EndElement "html";
         EndElement "response"], None)
  else if String.eqb s nested_feed then (events_of nested_doc, None)
  else ([], Some "syntax error: line 1, column 0").

Definition is_smsauth (rq : Request) : bool :=
  String.eqb (req_url rq) (url_of "SMSAUTH").

(** The service (and the machine of the client, on which only the home
    directory of the user and [/tmp] exist): the inbox shows the session
    token, the sign-in page is [login_body], posting the credentials lands on the SMS form when
    [two_factor] is set, the SMS form rejects the first [sms_rejections]
    codes, the contacts feed is [contacts_feed], and every other page
    answers [action_body] with status [action_status]. *)
Definition demo_response (login_body action_body : string) (action_status : Z)
    (two_factor : bool) (sms_rejections : nat) (log : list Request)
    (rq : Request) : Response :=
  let u := req_url rq in
  if String.eqb u (url_of "INBOX") then mkResponse u 200 inbox_page inbox_page
  else if String.eqb u (url_of "LOGIN") then mkResponse u 200 login_body login_body
  else if String.eqb u (url_of "LOGIN_POST")
  then mkResponse (if two_factor then url_of "SMSAUTH" else u) 200 "" ""
  else if String.eqb u (url_of "XML_CONTACTS")
  then mkResponse u 200 contacts_feed contacts_feed
  else if is_smsauth rq
  then if Nat.ltb (List.length (List.filter is_smsauth log)) sms_rejections
       then mkResponse u 200 invalid_code_marker invalid_code_marker
       else mkResponse u 200 sms_challenge sms_challenge
  else mkResponse u action_status action_body action_body.

Definition demo_env (login_body action_body : string) (action_status : Z)
    (two_factor : bool) (sms_rejections : nat) : Env :=
  {| server := fun log rq =>
       Ok (demo_response login_body action_body action_status two_factor
             sms_rejections log rq);
     response_read := fun r => Ok (resp_text r);
     json_loads := demo_json_loads;
     expat_parse := demo_expat_parse;
     dict_of_iterable := fun _ => Raise (TypeError "object is not iterable");
     settings := url_of;
     config_email := Some "user@example.com";
     config_password := Some "secret";
     config_smsKey := None;
     config_forwardingNumber := Some "5551234";
     config_phoneType := Some "2";
     input := fun _ => "";
     getpass := fun _ => "";
     b32decode_hex := fun k => if String.eqb k "MFRGG===" then Ok "616263"
                               else Raise (TypeError "Incorrect padding");
     shell_output := fun _ _ => "123456";
     getcwd := "/home/user";
     open_wb := fun _ fn =>
       if (startswith fn "/home/user/" || startswith fn "/tmp/")%bool
       then Ok tt
       else Raise (LibraryError "IOError" "No such file or directory");
     file_write := fun _ _ => None |}.

(** The same client with the network down. *)
Definition offline_env : Env :=
  let E := demo_env login_form accepted 200 false 0 in
  {| server := fun _ _ => Raise (LibraryError "ConnectionError" "unreachable");
     response_read := response_read E;
     json_loads := json_loads E;
     expat_parse := expat_parse E;
     dict_of_iterable := dict_of_iterable E;
     settings := settings E;
     config_email := config_email E;
     config_password := config_password E;
     config_smsKey := config_smsKey E;
     config_forwardingNumber := config_forwardingNumber E;
     config_phoneType := config_phoneType E;
     input := input E;
     getpass := getpass E;
     b32decode_hex := b32decode_hex E;
     shell_output := shell_output E;
     getcwd := getcwd E;
     open_wb := open_wb E;
     file_write := file_write E |}.

(** A freshly made [Voice] in a quiet world, and one holding a token. *)
Definition fresh : State := mkState (mkVoice None None) [] [] 0 [] ∅.
Definition signed_in : State := mkState (mkVoice (Some (Some "TOKEN")) None) [] [] 0 [] ∅.
Definition with_contacts : State :=
  mkState (mkVoice (Some (Some "TOKEN")) (Some (mkFolder "contacts" ∅))) [] [] 0 [] ∅.

Definition a_message : Message := mkMessage "f00d" ∅.

(** A [Phone]-like instance: [voice] assigned on the instance, a few
    method names on the class, and the entry [id] in the dict. *)
Definition a_phone_dict : AttrDict :=
  mkAttrDict {[ "voice" := Ref "voice" ]} {[ "enable"; "disable"; "keys" ]}
             {[ "id" := PInt 7 ]}.

End Scenario.

(* ===================================================================== *)
(** * googlevoice/voice.py, continued: the [settings] property            *)
(* ===================================================================== *)

Module VoiceMore.
Import Py Lib Util VoiceM.

Section WithEnv.
Variable E : Env.

(** [util.AttrDict(data)]: [dict.__init__(data)]. *)
Definition AttrDict_init (data : pyval) : result (gmap string pyval) :=
  match data with
  | PDict m => Ok m
  | _ => dict_of_iterable E data
  end.

(** The [settings] property: [util.AttrDict(self.contacts['settings'])]. *)
Definition Voice_settings : M State (gmap string pyval) :=
  do f <- contacts E;
  do v <- lift (dict_getitem (folder_items f) "settings");
  lift (AttrDict_init v).

End WithEnv.

End VoiceMore.

(* ===================================================================== *)
(** * googlevoice/__main__.py: the [login] helper of the command line     *)
(* ===================================================================== *)

Module MainM.
Import Py Lib Util VoiceM.

Definition lower_ascii (c : ascii) : ascii :=
  let n := nat_of_ascii c in
  if (Nat.leb 65 n && Nat.leb n 90)%bool then ascii_of_nat (n + 32) else c.

(** [s.lower()] (ASCII letters). *)
Fixpoint lower (s : string) : string :=
  match s with
  | EmptyString => EmptyString
  | String c rest => String (lower_ascii c) (lower rest)
  end.

(** [answer in YES], with [YES = ('', 'y')]. *)
Definition in_YES (answer : string) : bool :=
  (String.eqb answer "" || String.eqb answer "y")%bool.

(** [v in TRUTH], with [TRUTH = (True, 'true')]: membership compares with
    [==], under which [1] equals [True]. *)
Definition in_TRUTH (v : pyval) : bool :=
  match v with
  | PBool b => b
  | PInt z => Z.eqb z 1
  | PStr s => String.eqb s "true"
  | _ => false
  end.

Definition is_LoginError (e : exn) : bool :=
  match e with LoginError => true | _ => false end.

Section WithEnv.
Variable E : Env.
Variable environ : string -> option string.     (* [os.environ.get] *)

(** [environ_override(name, viro)], the fallback being [None]:
    [kwargs.get(name) or os.environ.get(viro) or None]. *)
Definition environ_override (kwarg : pyval) (viro : string) : pyval :=
  if truthy kwarg then kwarg
  else match environ viro with
       | Some v => if truthy (PStr v) then PStr v else PNone
       | None => PNone
       end.

(** The same for a keyword that is a string or [None]. *)
Definition environ_override_str (kwarg : option string) (viro : string)
    : option string :=
  match environ_override (opt_val kwarg) viro with
  | PStr v => Some v
  | _ => None
  end.

Definition batch_mode (batch : pyval) : bool :=
  in_TRUTH (environ_override batch "GOOGLE_VOICE_BATCH").

(** The lines printed before the attempt. *)
Definition announce (email passwd : option string) (batch : bool)
    : M State unit :=
  run print_line "Logging into voice…";
  run (if truthy_str email
       then print_line ("» EMAIL: " ++ match email with Some a => a | None => "" end)
       else ret tt);
  run (if truthy_str passwd then print_line "» PASSWD: *********" else ret tt);
  if batch then print_line "» BATCH: True" else ret tt.

(** [login(voice, **kwargs)]; the keywords are [email], [passwd] and
    [batch], [None] when not given. *)
Equations? login (email passwd : option string) (batch : pyval) (s : State)
    : result bool * State
    by wf (if batch_mode batch then 0 else 1)%nat lt :=
  login email passwd batch s with inspect (batch_mode batch) := {
    | exist _ is_batch Hbatch
        with (let email := environ_override_str email "GOOGLE_VOICE_USER" in
              let passwd := environ_override_str passwd "GOOGLE_VOICE_PASS" in
              run announce email passwd is_batch;
              VoiceM.login E email passwd None) s := {
        | (Ok _, s1) => (Ok true, s1)
        | (Raise e, s1) with is_LoginError e := {
            | false => (Raise e, s1)
            | true with is_batch := {
                | true => (run print_line "Login failed."; ret false) s1
                | false
                    with in_YES (lower (input E "Login failed. Retry? [Y/n] ")) := {
                    | true => login None None (PBool true) s1
                    | false => (Ok false, s1) } } } } }.
Proof. rewrite Hbatch. lia. Qed.

End WithEnv.
End MainM.

(* ===================================================================== *)
(** * More vocabulary                                                     *)
(* ===================================================================== *)

Module ExtraSpec.
Import Py Lib Util VoiceM FeedSpec VoiceSpec.

(** Every character of [s] satisfies [f]. *)
Fixpoint str_forall (f : ascii -> bool) (s : string) : bool :=
  match s with
  | EmptyString => true
  | String c rest => (f c && str_forall f rest)%bool
  end.

Section WithEnv.
Variable E : Env.

(** The request [logout] makes. *)
Definition logout_request : Request :=
  mkRequest "GET" (resolve_page E "logout") DNone None None.

(** The request [rq], sent after the requests [before], was answered with a
    page carrying the invalid-code marker. *)
Definition rejected (before : list Request) (rq : Request) : Prop :=
  exists resp content,
    server E before rq = Ok resp
    /\ response_read E resp = Ok content
    /\ contains invalid_code_marker content = true.

(** The state a [logout] that returns leaves: the logout page and the inbox
    page were requested, in this order, and [_special] is [None]. *)
Definition logged_out (s : State) : State :=
  set_special (Some None)
    (sent (inbox_request E) (sent logout_request s)).


(** Of the requests [reqs], sent in this order after [before], every one
    but the last was rejected. *)
Fixpoint all_but_last_rejected (before reqs : list Request) : Prop :=
  match reqs with
  | [] => True
  | rq :: rest =>
      match rest with
      | [] => True
      | _ :: _ => rejected before rq
                  /\ all_but_last_rejected (before ++ [rq]) rest
      end
  end.

End WithEnv.

(** The state after printing [line]. *)
Definition told (line : string) (s : State) : State :=
  mkState (voice s) (http_log s) (shell_log s) (slept s)
          (printed s ++ [line]) (files s).

Section CommandLine.
Variable E : Env.
Variable environ : string -> option string.

(** One sign-in attempt of the command line: the announcement, then
    [voice.login] with the credentials of the keywords or the environment. *)
Definition sign_in_attempt (email passwd : option string) (is_batch : bool)
    : M State Voice :=
  let email := MainM.environ_override_str environ email "GOOGLE_VOICE_USER" in
  let passwd := MainM.environ_override_str environ passwd "GOOGLE_VOICE_PASS" in
  run MainM.announce email passwd is_batch;
  VoiceM.login E email passwd None.

(** The user answers the retry prompt with yes. *)
Definition retry_asked : bool :=
  MainM.in_YES (MainM.lower (input E "Login failed. Retry? [Y/n] ")).

(** What the command line makes of an attempt in batch mode. *)
Definition batch_outcome (r : result Voice * State) : result bool * State :=
  match r with
  | (Ok _, s1) => (Ok true, s1)
  | (Raise e, s1) =>
      if MainM.is_LoginError e then (Ok false, told "Login failed." s1)
      else (Raise e, s1)
  end.

(** The command-line [login] with its recursion unfolded: one attempt and,
    outside batch mode and on request, one more in batch mode. *)
Definition login_outcome (email passwd : option string) (batch : pyval)
    (s : State) : result bool * State :=
  let is_batch := MainM.batch_mode environ batch in
  match sign_in_attempt email passwd is_batch s with
  | (Ok _, s1) => (Ok true, s1)
  | (Raise e, s1) =>
      if MainM.is_LoginError e then
        if is_batch then (Ok false, told "Login failed." s1)
        else if retry_asked
             then batch_outcome (sign_in_attempt None None true s1)
             else (Ok false, s1)
      else (Raise e, s1)
  end.

End CommandLine.

End ExtraSpec.

(* ===================================================================== *)
(** * More of the concrete service                                        *)
(* ===================================================================== *)

Module ExtraScenario.
Import Py Lib Util VoiceM FeedSpec VoiceSpec Scenario.

(** The tree of [contacts_feed]. *)
Definition contacts_doc : node :=
  Element "response" []
    [Element "json" [] [Text contacts_json]; Element "html" [] [Text "x"]].

Definition is_logout (rq : Request) : bool :=
  String.eqb (req_url rq) (url_of "LOGOUT").

(** A service that ends the session on request: once the logout page was
    asked for, the inbox shows the sign-in page instead of the token. *)
Definition logout_env : Env :=
  let E := demo_env login_form accepted 200 false 0 in
  {| server := fun log rq =>
       if (String.eqb (req_url rq) (url_of "INBOX") && existsb is_logout log)%bool
       then Ok (mkResponse (req_url rq) 200 login_form_without_gxf
                           login_form_without_gxf)
       else server E log rq;
     response_read := response_read E;
     json_loads := json_loads E;
     expat_parse := expat_parse E;
     dict_of_iterable := dict_of_iterable E;
     settings := settings E;
     config_email := config_email E;
     config_password := config_password E;
     config_smsKey := config_smsKey E;
     config_forwardingNumber := config_forwardingNumber E;
     config_phoneType := config_phoneType E;
     input := input E;
     getpass := getpass E;
     b32decode_hex := b32decode_hex E;
     shell_output := shell_output E;
     getcwd := getcwd E;
     open_wb := open_wb E;
     file_write := file_write E |}.

(** The state of a client whose session was ended behind its back: the
    logout page was requested, the instance holds no token. *)
Definition signed_out : State :=
  mkState (mkVoice None None)
          [mkRequest "GET" (url_of "LOGOUT") DNone None None] [] 0 [] ∅.

(** A service whose contacts feed carries a [settings] entry. *)
Definition settings_json : string :=
  "{" ++ quoted "settings" ++ ": {" ++ quoted "language" ++ ": "
  ++ quoted "en" ++ "}}".
Definition settings_feed : string :=
  "<response><json>" ++ settings_json ++ "</json><html></html></response>".

Definition settings_env : Env :=
  let E := demo_env login_form accepted 200 false 0 in
  {| server := fun log rq =>
       if String.eqb (req_url rq) (url_of "XML_CONTACTS")
       then Ok (mkResponse (req_url rq) 200 settings_feed settings_feed)
       else server E log rq;
     response_read := response_read E;
     json_loads := fun text =>
       if String.eqb text settings_json
       then Ok (PDict {[ "settings" := PDict {[ "language" := PStr "en" ]} ]})
       else json_loads E text;
     expat_parse := fun text =>
       if String.eqb text settings_feed
       then ([StartElement "response" [];
              StartElement "json" []; CharacterData settings_json;
              EndElement "json";
              StartElement "html" []; EndElement "html";
              EndElement "response"], None)
       else expat_parse E text;
     dict_of_iterable := dict_of_iterable E;
     settings := settings E;
     config_email := config_email E;
     config_password := config_password E;
     config_smsKey := config_smsKey E;
     config_forwardingNumber := config_forwardingNumber E;
     config_phoneType := config_phoneType E;
     input := input E;
     getpass := getpass E;
     b32decode_hex := b32decode_hex E;
     shell_output := shell_output E;
     getcwd := getcwd E;
     open_wb := open_wb E;
     file_write := file_write E |}.

(** A feed cut off inside its [json] element, and a parser library that
    reports the two start tags before it fails on it. *)
Definition truncated_feed : string := "<response><json>".

Definition truncated_env : Env :=
  let E := demo_env login_form accepted 200 false 0 in
  {| server := server E;
     response_read := response_read E;
     json_loads := json_loads E;
     expat_parse := fun text =>
       if String.eqb text truncated_feed
       then ([StartElement "response" []; StartElement "json" []],
             Some "no element found: line 1, column 16")
       else expat_parse E text;
     dict_of_iterable := dict_of_iterable E;
     settings := settings E;
     config_email := config_email E;
     config_password := config_password E;
     config_smsKey := config_smsKey E;
     config_forwardingNumber := config_forwardingNumber E;
     config_phoneType := config_phoneType E;
     input := input E;
     getpass := getpass E;
     b32decode_hex := b32decode_hex E;
     shell_output := shell_output E;
     getcwd := getcwd E;
     open_wb := open_wb E;
     file_write := file_write E |}.

(** No variable set in the environment of the process. *)
Definition no_environ : string -> option string := fun _ => None.

End ExtraScenario.

(* ===================================================================== *)
(** * Properties of util.py                                               *)
(* ===================================================================== *)

Module UtilTheory.
Import Py Lib Util FeedSpec Scenario.

(** ** The model at work *)

Example path_join_examples :
  path_join "/home/user" "f00d.mp3" = "/home/user/f00d.mp3"
  /\ path_join "/tmp/" "f00d.mp3" = "/tmp/f00d.mp3"
  /\ path_join "" "f00d.mp3" = "f00d.mp3"
  /\ path_join "/tmp" "/f00d.mp3" = "/f00d.mp3".
Proof. repeat split. Qed.

Example contacts_feed_parsed :
  XMLParser_call (demo_env login_form accepted 200 false 0)
    (XMLParser_init "contacts") (ret contacts_feed) tt
  = (Ok (mkFolder "contacts" {[ "totalSize" := PInt 0 ]}),
     mkXMLParser None contacts_json "x" "contacts", tt).
Proof. vm_compute. reflexivity. Qed.

Example validate_response_examples :
  validate_response (PDict {[ "ok" := PBool true ]}) = Ok tt
  /\ validate_response (PDict {[ "ok" := PInt 0 ]})
     = Raise (ValidationError (PDict {[ "ok" := PInt 0 ]}) "")
  /\ validate_response (PDict ∅) = Raise (ValidationError (PDict ∅) "")
  /\ validate_response (PList [PStr "ok"])
     = Raise (TypeError "indices must be integers")
  /\ validate_response (PInt 5) = Raise (TypeError "argument is not iterable").
Proof. vm_compute. repeat split. Qed.

(** ** [AttrDict] *)

Lemma AttrDict_getattr_total (d : gmap string pyval) (a : string) :
  AttrDict_getattr d a = Ok (match d !! a with Some v => v | None => PNone end).
Proof.
  unfold AttrDict_getattr, dict_getitem.
  destruct (d !! a) as [v|] eqn:Hd.
  - rewrite bool_decide_eq_true_2 by eauto. reflexivity.
  - rewrite bool_decide_eq_false_2; [reflexivity|].
    intros [v Hv]. discriminate.
Qed.

(** C9. For an attribute name that normal lookup does not find, reading
    [d.a] returns [d[a]] when [a] is a key of the dict and [None]
    otherwise; no [AttributeError] comes out of the access. *)
Theorem AttrDict_missing_attribute (d : AttrDict) (a : string) :
  normal_lookup d a = Raise (AttributeError a) ->
  getattr d a
    = Ok (Stored (match items d !! a with Some v => v | None => PNone end))
  /\ (forall msg, getattr d a <> Raise (AttributeError msg)).
Proof.
  intros Hmiss.
  assert (Hget : getattr d a
    = Ok (Stored (match items d !! a with Some v => v | None => PNone end))).
  { unfold getattr. rewrite Hmiss, AttrDict_getattr_total. reflexivity. }
  split; [exact Hget|].
  intros msg Hraise. rewrite Hget in Hraise. discriminate.
Qed.

Lemma AttrDict_missing_attribute_witness :
  normal_lookup a_phone_dict "id" = Raise (AttributeError "id")
  /\ getattr a_phone_dict "id" = Ok (Stored (PInt 7))
  /\ (forall msg, getattr a_phone_dict "id" <> Raise (AttributeError msg)).
Proof.
  split; [vm_compute; reflexivity|].
  apply (AttrDict_missing_attribute a_phone_dict "id").
  vm_compute. reflexivity.
Defined.

(** ** [XMLParser]: the handlers *)

Lemma str_app_nil_r (s : string) : s ++ "" = s.
Proof.
  induction s as [|c s IH]; [reflexivity|].
  change (String c (s ++ "") = String c s). now rewrite IH.
Qed.

Lemma str_app_assoc (a b c : string) : (a ++ b) ++ c = a ++ (b ++ c).
Proof.
  induction a as [|x a IH]; [reflexivity|].
  change (String x ((a ++ b) ++ c) = String x (a ++ (b ++ c))). now rewrite IH.
Qed.

Lemma handle_attr (p : XMLParser) (ev : xml_event) :
  attr (handle p ev) = state_after (attr p) ev.
Proof.
  destruct ev as [nm attrs|nm|d]; simpl.
  - unfold start_element.
    destruct (String.eqb nm "json" || String.eqb nm "html")%bool; reflexivity.
  - reflexivity.
  - unfold char_data. destruct (attr p) as [a|] eqn:Ha; [|now rewrite Ha].
    destruct (negb (String.eqb a "") && negb (String.eqb d ""))%bool;
      [|now rewrite Ha].
    unfold setattr_named.
    destruct (String.eqb a "json"); [simpl; now rewrite Ha|].
    destruct (String.eqb a "html"); simpl; now rewrite Ha.
Qed.

Lemma handle_name (p : XMLParser) (ev : xml_event) :
  name (handle p ev) = name p.
Proof.
  destruct ev as [nm attrs|nm|d]; simpl.
  - unfold start_element.
    destruct (String.eqb nm "json" || String.eqb nm "html")%bool; reflexivity.
  - reflexivity.
  - unfold char_data. destruct (attr p) as [a|]; [|reflexivity].
    destruct (negb (String.eqb a "") && negb (String.eqb d ""))%bool;
      [|reflexivity].
    unfold setattr_named.
    destruct (String.eqb a "json"); [reflexivity|].
    destruct (String.eqb a "html"); reflexivity.
Qed.

Lemma handle_json (p : XMLParser) (ev : xml_event) :
  json (handle p ev) = json p ++ added "json" (attr p) ev.
Proof.
  destruct ev as [nm attrs|nm|d]; simpl.
  - unfold start_element.
    destruct (String.eqb nm "json" || String.eqb nm "html")%bool;
      simpl; now rewrite str_app_nil_r.
  - now rewrite str_app_nil_r.
  - unfold char_data, selects. destruct (attr p) as [a|];
      [|now rewrite str_app_nil_r].
    destruct (String.eqb_spec a "") as [->|Ha]; simpl;
      [now rewrite str_app_nil_r|].
    destruct (String.eqb_spec d "") as [->|Hd]; simpl.
    + destruct (String.eqb a "json"); now rewrite str_app_nil_r.
    + unfold setattr_named, getattr_named.
      destruct (String.eqb a "json"); [reflexivity|].
      destruct (String.eqb a "html"); simpl; now rewrite str_app_nil_r.
Qed.

Lemma handle_html (p : XMLParser) (ev : xml_event) :
  html (handle p ev) = html p ++ added "html" (attr p) ev.
Proof.
  destruct ev as [nm attrs|nm|d]; simpl.
  - unfold start_element.
    destruct (String.eqb nm "json" || String.eqb nm "html")%bool;
      simpl; now rewrite str_app_nil_r.
  - now rewrite str_app_nil_r.
  - unfold char_data, selects. destruct (attr p) as [a|];
      [|now rewrite str_app_nil_r].
    destruct (String.eqb_spec a "") as [->|Ha]; simpl;
      [now rewrite str_app_nil_r|].
    destruct (String.eqb_spec d "") as [->|Hd]; simpl.
    + destruct (String.eqb a "html"); now rewrite str_app_nil_r.
    + unfold setattr_named, getattr_named.
      destruct (String.eqb_spec a "json") as [->|Hj];
        [simpl; now rewrite str_app_nil_r|].
      destruct (String.eqb a "html"); simpl; [reflexivity|].
      now rewrite str_app_nil_r.
Qed.

Lemma state_after_is_tag (st : option string) (ev : xml_event) :
  attr_is_tag st -> attr_is_tag (state_after st ev).
Proof.
  intros Hst. destruct ev as [nm attrs|nm|d]; simpl;
    [|left; reflexivity|exact Hst].
  destruct (String.eqb_spec nm "json") as [->|Hj]; simpl;
    [right; left; reflexivity|].
  destruct (String.eqb_spec nm "html") as [->|Hh];
    [right; right; reflexivity|exact Hst].
Qed.

Lemma feed_extracts (events : list xml_event) (p : XMLParser) :
  feed p events
  = mkXMLParser (fold_left state_after events (attr p))
                (json p ++ extracted "json" (attr p) events)
                (html p ++ extracted "html" (attr p) events)
                (name p).
Proof.
  revert p. induction events as [|ev events IH]; intros p.
  - simpl. rewrite !str_app_nil_r. destruct p; reflexivity.
  - change (feed p (ev :: events)) with (feed (handle p ev) events).
    rewrite IH, handle_attr, handle_json, handle_html, handle_name.
    simpl. unfold added. rewrite !str_app_assoc. reflexivity.
Qed.

Lemma feed_attr_is_tag (events : list xml_event) (p : XMLParser) :
  attr_is_tag (attr p) -> attr_is_tag (attr (feed p events)).
Proof.
  rewrite feed_extracts. simpl. revert p.
  induction events as [|ev events IH]; intros p Hp; [exact Hp|].
  simpl. rewrite <- handle_attr. apply IH. rewrite handle_attr.
  now apply state_after_is_tag.
Qed.

(** ** Flat feeds: the text inside [json] and [html] is what is extracted *)

Lemma str_app_nil_l (s : string) : "" ++ s = s.
Proof. reflexivity. Qed.

Lemma extracted_cons (tag : string) (st : option string) (ev : xml_event)
    (rest : list xml_event) :
  extracted tag st (ev :: rest)
  = added tag st ev ++ extracted tag (state_after st ev) rest.
Proof. reflexivity. Qed.

Lemma extracted_texts (tag : string) (st : option string) (grand : list node)
    (rest : list xml_event) :
  forallb is_text grand = true ->
  extracted tag st (flat_map events_of grand ++ rest)
  = (if selects st tag then own_text grand else "") ++ extracted tag st rest.
Proof.
  induction grand as [|child grand IH]; intros Hflat.
  - simpl. now destruct (selects st tag).
  - simpl in Hflat. apply andb_true_iff in Hflat as [Hchild Hgrand].
    destruct child as [t|nm attrs kids]; [|discriminate].
    change (flat_map events_of (Text t :: grand) ++ rest)%list
      with (CharacterData t :: (flat_map events_of grand ++ rest))%list.
    rewrite extracted_cons. simpl state_after. rewrite (IH Hgrand).
    unfold added. change (own_text (Text t :: grand)) with (t ++ own_text grand).
    destruct (selects st tag); [now rewrite str_app_assoc|reflexivity].
Qed.

Lemma text_inside_flat (tag nm : string) (attrs : list (string * string))
    (grand : list node) :
  forallb is_text grand = true ->
  text_inside tag (Element nm attrs grand)
  = if String.eqb nm tag then own_text grand else "".
Proof.
  simpl. induction grand as [|child grand IH]; intros Hflat.
  - simpl. now destruct (String.eqb nm tag).
  - simpl in Hflat. apply andb_true_iff in Hflat as [Hchild Hgrand].
    destruct child as [t|cn cattrs kids]; [|discriminate].
    simpl. rewrite (IH Hgrand).
    change (own_text (Text t :: grand)) with (t ++ own_text grand).
    now destruct (String.eqb nm tag).
Qed.

Lemma selects_after_start (tag nm : string) (attrs : list (string * string)) :
  is_tag tag = true ->
  selects (state_after None (StartElement nm attrs)) tag = String.eqb nm tag.
Proof.
  intros Htag. simpl. fold (is_tag nm).
  destruct (is_tag nm) eqn:Hnm; [reflexivity|]. simpl.
  destruct (String.eqb_spec nm tag) as [->|_]; [congruence|reflexivity].
Qed.

Lemma extracted_flat_children (tag root : string) (children : list node)
    (rest : list xml_event) :
  is_tag tag = true -> String.eqb root tag = false ->
  forallb flat_child children = true ->
  extracted tag None (flat_map events_of children ++ rest)
  = fold_right
      (fun child acc =>
         (match child with
          | Text s => if String.eqb root tag then s else ""
          | Element _ _ _ => text_inside tag child
          end) ++ acc)
      "" children
    ++ extracted tag None rest.
Proof.
  intros Htag Hroot. induction children as [|child children IH]; intros Hflat.
  - reflexivity.
  - simpl in Hflat. apply andb_true_iff in Hflat as [Hchild Hchildren].
    specialize (IH Hchildren).
    destruct child as [t|nm attrs grand].
    + change (flat_map events_of (Text t :: children) ++ rest)%list
        with (CharacterData t :: (flat_map events_of children ++ rest))%list.
      rewrite extracted_cons. simpl state_after. rewrite IH.
      simpl fold_right. rewrite Hroot. reflexivity.
    + simpl in Hchild.
      change (flat_map events_of (Element nm attrs grand :: children) ++ rest)%list
        with (StartElement nm attrs
              :: (((flat_map events_of grand ++ [EndElement nm])
                   ++ flat_map events_of children) ++ rest))%list.
      rewrite extracted_cons, <- !app_assoc.
      rewrite (extracted_texts tag _ grand _ Hchild).
      rewrite (selects_after_start tag nm attrs Htag).
      change ([EndElement nm] ++ flat_map events_of children ++ rest)%list
        with (EndElement nm :: (flat_map events_of children ++ rest))%list.
      rewrite extracted_cons. simpl state_after. rewrite IH.
      cbn [fold_right]. rewrite (text_inside_flat tag nm attrs grand Hchild).
      unfold added. rewrite !str_app_nil_l, str_app_assoc. reflexivity.
Qed.

(** On a flat feed read from the state [None], what is extracted for
    ['json'] (for ['html']) is the text inside the [json] ([html])
    elements. *)
Lemma flat_feed_extracts (tag : string) (doc : node) :
  is_tag tag = true -> flat_feed doc = true ->
  extracted tag None (events_of doc) = text_inside tag doc.
Proof.
  intros Htag Hflat. destruct doc as [t|root attrs children]; [discriminate|].
  simpl in Hflat. apply andb_true_iff in Hflat as [Hroot Hchildren].
  apply negb_true_iff in Hroot.
  assert (Hne : String.eqb root tag = false).
  { destruct (String.eqb_spec root tag) as [->|_]; [congruence|reflexivity]. }
  change (events_of (Element root attrs children))
    with (StartElement root attrs
          :: (flat_map events_of children ++ [EndElement root]))%list.
  rewrite extracted_cons. simpl state_after. fold (is_tag root). rewrite Hroot.
  rewrite (extracted_flat_children tag root children _ Htag Hne Hchildren).
  simpl. now rewrite !str_app_nil_r.
Qed.

Section Parser.
Variable E : Env.

(** The parser a call leaves behind: cleared, then fed the events parsed. *)
Lemma XMLParser_call_parser {S : Type} (p : XMLParser)
    (datafunc : M S string) (s : S) :
  snd (fst (XMLParser_call E p datafunc s))
  = match fst (datafunc s) with
    | Ok text => feed (mkXMLParser (attr p) "" "" (name p))
                      (fst (expat_parse E text))
    | Raise _ => mkXMLParser (attr p) "" "" (name p)
    end.
Proof.
  unfold XMLParser_call.
  destruct (datafunc s) as [[text|exc] s']; simpl; [|reflexivity].
  destruct (expat_parse E text) as [events [msg|]]; reflexivity.
Qed.

Lemma XMLParser_call_name {S : Type} (p : XMLParser)
    (datafunc : M S string) (s : S) :
  name (snd (fst (XMLParser_call E p datafunc s))) = name p.
Proof.
  rewrite XMLParser_call_parser.
  destruct (fst (datafunc s)) as [text|exc]; [|reflexivity].
  now rewrite feed_extracts.
Qed.

(** C1 (as amended). Calling the parser clears [json] and [html], then
    appends to [json] the character data reported while the state is
    ['json'] and to [html] the data reported while it is ['html']: the
    state is set by a start tag named ['json'] or ['html'] and by no other
    name, and it is cleared by every end tag.  Data reported in any other
    state reaches neither attribute. *)
Theorem XMLParser_call_extracts {S : Type} (p : XMLParser)
    (datafunc : M S string) (s : S) :
  let p' := snd (fst (XMLParser_call E p datafunc s)) in
  name p' = name p
  /\ match fst (datafunc s) with
     | Ok text =>
         let events := fst (expat_parse E text) in
         json p' = extracted "json" (attr p) events
         /\ html p' = extracted "html" (attr p) events
         /\ attr p' = fold_left state_after events (attr p)
     | Raise _ => json p' = "" /\ html p' = "" /\ attr p' = attr p
     end.
Proof.
  unfold XMLParser_call.
  destruct (datafunc s) as [[text|exc] s']; simpl.
  - destruct (expat_parse E text) as [events failure]; simpl.
    assert (Hfeed := feed_extracts events (mkXMLParser (attr p) "" "" (name p))).
    simpl in Hfeed.
    destruct failure as [msg|]; simpl; rewrite Hfeed; simpl; auto.
  - auto.
Qed.

(** ** [XMLParser]: [data] and [folder] *)

(** C5. [data] raises [JSONError] exactly when [json.loads] fails on the
    accumulated [json] string and returns the decoded value otherwise; a
    [Folder] returned by calling the parser is made of exactly that value,
    under the page name of the parser. *)
Theorem data_raises_JSONError_iff {S : Type} (p : XMLParser)
    (datafunc : M S string) (s : S) :
  ((exists msg, data E p = Raise (JSONError msg))
   <-> (exists exc, json_loads E (json p) = Raise exc))
  /\ (forall v, json_loads E (json p) = Ok v -> data E p = Ok v)
  /\ (forall f p' s',
        XMLParser_call E p datafunc s = (Ok f, p', s') ->
        exists v, json_loads E (json p') = Ok v
                  /\ data E p' = Ok v
                  /\ Folder_init E (name p) v = Ok f
                  /\ folder_name f = name p).
Proof.
  split; [|split].
  - unfold data. split.
    + intros [msg Hmsg]. destruct (json_loads E (json p)) as [v|exc];
        [discriminate|eauto].
    + intros [exc Hexc]. rewrite Hexc. eauto.
  - intros v Hv. unfold data. now rewrite Hv.
  - intros f p' s' Hcall.
    assert (Hname : name p' = name p).
    { pose proof (XMLParser_call_name p datafunc s) as Hn.
      rewrite Hcall in Hn. exact Hn. }
    unfold XMLParser_call in Hcall.
    destruct (datafunc s) as [[text|exc] s1]; [|discriminate].
    destruct (expat_parse E text) as [events failure].
    destruct failure as [msg|]; [discriminate|].
    injection Hcall as Hfolder Hp' _. subst p'.
    unfold folder, data in *.
    destruct (json_loads E (json _)) as [v|exc]; [|discriminate].
    exists v. rewrite <- Hname. repeat split; try assumption.
    unfold Folder_init in Hfolder.
    destruct v; try (destruct (dict_of_iterable E _); [|discriminate]);
      injection Hfolder as <-; reflexivity.
Qed.

End Parser.

Lemma data_raises_JSONError_iff_witness :
  let E := demo_env login_form accepted 200 false 0 in
  exists v,
    json_loads E contacts_json = Ok v
    /\ data E (mkXMLParser None contacts_json "x" "contacts") = Ok v
    /\ Folder_init E "contacts" v
       = Ok (mkFolder "contacts" {[ "totalSize" := PInt 0 ]})
    /\ folder_name (mkFolder "contacts" {[ "totalSize" := PInt 0 ]}) = "contacts".
Proof.
  intros E.
  destruct (data_raises_JSONError_iff E (XMLParser_init "contacts")
              (ret contacts_feed) tt) as (_ & _ & Hfolder).
  apply (Hfolder (mkFolder "contacts" {[ "totalSize" := PInt 0 ]})
                 (mkXMLParser None contacts_json "x" "contacts") tt).
  vm_compute. reflexivity.
Defined.

(** C1, as stated, fails: in [<response><json>a<b/>c</json></response>]
    the text [c] lies inside the [json] element, after the child [b], and
    the call leaves [json] at ["a"]. *)
Lemma text_after_child_is_not_extracted :
  let E := demo_env login_form accepted 200 false 0 in
  let p' := snd (fst (XMLParser_call E (XMLParser_init "inbox")
                        (ret nested_feed) tt)) in
  fst (expat_parse E nested_feed) = events_of nested_doc
  /\ text_inside "json" nested_doc = "ac"
  /\ text_below "json" false nested_doc = "ac"
  /\ json p' = "a".
Proof. vm_compute. repeat split. Qed.

End UtilTheory.

(* ===================================================================== *)
(** * Properties of voice.py                                              *)
(* ===================================================================== *)

Module VoiceTheory.
Import Py Lib Util VoiceM FeedSpec VoiceSpec ExtraSpec Scenario.

(** ** The model at work *)

(** The greedy [(.+)] runs to the last quote of the line. *)
Example special_pattern_is_greedy :
  re_search special_pattern "x = {'_rnr_se': 'a' + 'b'};"
  = Some ["'_rnr_se':"; "a' + 'b"].
Proof. vm_compute. reflexivity. Qed.

Example gxf_pattern_found :
  group (re_search gxf_pattern login_form) 1 = Ok "GXF"
  /\ re_search gxf_pattern login_form_without_gxf = None.
Proof. vm_compute. split; reflexivity. Qed.

(** Two rejected codes: three attempts, twenty seconds of sleep. *)
Example smsAuth_third_attempt_passes :
  let out := smsAuth (demo_env login_form accepted 200 true 2)
               (Some "MFRG G===") fresh in
  fst out = Ok sms_challenge
  /\ List.length (http_log (snd out)) = 3%nat
  /\ shell_log (snd out) = ["oathtool --totp 616263"; "oathtool --totp 616263";
                            "oathtool --totp 616263"]
  /\ slept (snd out) = 20.
Proof. vm_compute. repeat split. Qed.

(** Codes rejected for ever: five attempts, and the rejection comes back. *)
Example smsAuth_gives_up_after_five :
  let out := smsAuth (demo_env login_form accepted 200 true 100)
               (Some "MFRG G===") fresh in
  fst out = Ok invalid_code_marker
  /\ List.length (http_log (snd out)) = 5%nat
  /\ slept (snd out) = 40.
Proof. vm_compute. repeat split. Qed.

Example login_two_factor :
  let out := login (demo_env login_form accepted 200 true 2)
               None None (Some "MFRG G===") fresh in
  fst out = Ok (mkVoice (Some (Some "TOKEN")) None)
  /\ map req_url (http_log (snd out))
     = [url_of "LOGIN"; url_of "LOGIN_POST"; url_of "SMSAUTH"; url_of "SMSAUTH";
        url_of "SMSAUTH"; url_of "LOGIN"; url_of "INBOX"].
Proof. vm_compute. repeat split. Qed.

(** With the network down the exception of the first request comes out of
    [login] as it is. *)
Example login_offline :
  fst (login offline_env None None None fresh)
  = Raise (LibraryError "ConnectionError" "unreachable").
Proof. vm_compute. reflexivity. Qed.

Example download_examples :
  let E := demo_env login_form "ID3" 200 false 0 in
  let E404 := demo_env login_form "gone" 404 false 0 in
  fst (download E (MsgObject a_message) None fresh) = Ok "/home/user/f00d.mp3"
  /\ files (snd (download E (MsgObject a_message) None fresh))
     = {[ "/home/user/f00d.mp3" := "ID3" ]}
  /\ fst (download E404 (MsgId "f00d") (Some "/tmp") fresh) = Raise DownloadError
  /\ files (snd (download E404 (MsgId "f00d") (Some "/tmp") fresh)) = ∅
  /\ fst (download offline_env (MsgId "f00d") None fresh) = Raise DownloadError.
Proof. vm_compute. repeat split. Qed.

(** ** The monad *)

Lemma bind_ok {S A B} (m : M S A) (k : A -> M S B) (s s' : S) (a : A) :
  m s = (Ok a, s') -> bind m k s = k a s'.
Proof. intros H. unfold bind. now rewrite H. Qed.

Lemma bind_raise {S A B} (m : M S A) (k : A -> M S B) (s s' : S) (e : exn) :
  m s = (Raise e, s') -> bind m k s = (Raise e, s').
Proof. intros H. unfold bind. now rewrite H. Qed.

(** ** The patterns: a match fills every group *)

Lemma first_down_Some {A} (f : nat -> option A) (n : nat) (r : A) :
  first_down f n = Some r -> exists k, (1 <= k <= n)%nat /\ f k = Some r.
Proof.
  induction n as [|n IH]; simpl; [discriminate|].
  destruct (f (S n)) as [r'|] eqn:Hf.
  - intros [= <-]. exists (S n). split; [lia|exact Hf].
  - intros H. destruct (IH H) as (k & Hk & Hfk). exists k. split; [lia|exact Hfk].
Qed.

Lemma re_match_length (p : regex) :
  forall s opened caps res,
    re_match p s opened caps = Some res ->
    List.length res = (List.length caps + groups p)%nat.
Proof.
  induction p as [|item p IH]; intros s opened caps res H; simpl in *.
  - injection H as <-. lia.
  - destruct item as [k|k| |].
    + destruct s as [|x rest]; [discriminate|].
      destruct (cclass_matches k x); [|discriminate]. now apply IH in H.
    + apply first_down_Some in H as (n & _ & H). now apply IH in H.
    + now apply IH in H.
    + apply IH in H. rewrite H, length_app. simpl. lia.
Qed.

Lemma re_search_length (p : regex) (s : string) (caps : list string) :
  re_search p s = Some caps -> List.length caps = groups p.
Proof.
  induction s as [|x rest IH]; simpl.
  - destruct (re_match p "" None []) as [res|] eqn:Hm; [|discriminate].
    intros [= <-]. now apply re_match_length in Hm.
  - destruct (re_match p (String x rest) None []) as [res|] eqn:Hm.
    + intros [= <-]. now apply re_match_length in Hm.
    + exact IH.
Qed.

Lemma group_found (p : regex) (s : string) (caps : list string) (i : nat) :
  re_search p s = Some caps -> (1 <= i <= groups p)%nat ->
  exists g, group (Some caps) i = Ok g /\ nth_error caps (Nat.pred i) = Some g.
Proof.
  intros Hs Hi. apply re_search_length in Hs. unfold group.
  destruct (nth_error caps (Nat.pred i)) as [g|] eqn:Hn; [eauto|].
  apply nth_error_None in Hn. lia.
Qed.

(** ** The session-token pattern captures a non-empty token *)

Lemma record_nil (opened : option string) : record opened "" = opened.
Proof.
  destruct opened as [buf|]; simpl; [|reflexivity].
  now rewrite UtilTheory.str_app_nil_r.
Qed.

Lemma record_record (opened : option string) (a b : string) :
  record (record opened a) b = record opened (a ++ b).
Proof.
  destruct opened as [buf|]; simpl; [|reflexivity].
  now rewrite UtilTheory.str_app_assoc.
Qed.

(** Literal text matches itself and nothing else. *)
Lemma re_match_lit (l : string) (p : regex) :
  forall s opened caps res,
    re_match (re_lit l ++ p)%list s opened caps = Some res ->
    exists s', s = l ++ s' /\ re_match p s' (record opened l) caps = Some res.
Proof.
  induction l as [|c l IH]; intros s opened caps res H.
  - exists s. rewrite record_nil. auto.
  - simpl in H. destruct s as [|x rest]; [discriminate|].
    destruct (Ascii.eqb_spec x c) as [->|Hne]; [|discriminate].
    apply IH in H as (s' & -> & H). exists s'. split; [reflexivity|].
    rewrite record_record in H. exact H.
Qed.

Lemma str_take_nonempty (n : nat) (k : cclass) (s : string) :
  (1 <= n <= span k s)%nat -> str_take n s <> "".
Proof.
  intros [Hn Hspan]. destruct s as [|x rest]; simpl in Hspan; [lia|].
  destruct n as [|n]; [lia|]. simpl. discriminate.
Qed.

Lemma special_pattern_match (s : string) (res : list string) :
  re_match special_pattern s None [] = Some res ->
  exists token, res = ["'_rnr_se':"; token] /\ token <> "".
Proof.
  intros H. unfold special_pattern in H.
  change ([ROpen] ++ ?p)%list with (ROpen :: p) in H. cbn [re_match] in H.
  apply re_match_lit in H as (s1 & _ & H).
  change ([RClose] ++ ?p)%list with (RClose :: p) in H. cbn [re_match] in H.
  apply re_match_lit in H as (s2 & _ & H).
  change ([ROpen; RPlus CDot; RClose] ++ ?p)%list
    with (ROpen :: RPlus CDot :: RClose :: (p ++ []))%list in H.
  cbn [re_match] in H.
  apply first_down_Some in H as (n & Hn & H).
  apply re_match_lit in H as (s3 & _ & H).
  injection H as <-. exists (str_take n s2). split; [reflexivity|].
  now apply (str_take_nonempty n CDot).
Qed.

Lemma re_search_match (p : regex) (s : string) (res : list string) :
  re_search p s = Some res ->
  exists s', re_match p s' None [] = Some res.
Proof.
  induction s as [|x rest IH]; simpl.
  - destruct (re_match p "" None []) as [r|] eqn:Hm; [|discriminate].
    intros [= <-]. eauto.
  - destruct (re_match p (String x rest) None []) as [r|] eqn:Hm.
    + intros [= <-]. eauto.
    + exact IH.
Qed.

Section WithEnv.
Variable E : Env.

(** The session token is truthy exactly when the pattern is found on the
    inbox page. *)
Lemma special_of_page_truthy (text : string) :
  truthy_str (special_of_page text)
  = match re_search special_pattern text with Some _ => true | None => false end.
Proof.
  unfold special_of_page.
  destruct (re_search special_pattern text) as [caps|] eqn:Hs; [|reflexivity].
  apply re_search_match in Hs as (s' & Hm).
  apply special_pattern_match in Hm as (token & -> & Hne). simpl.
  destruct (String.eqb_spec token "") as [->|_]; [congruence|reflexivity].
Qed.

(** ** The [special] property *)

Lemma special_cached (s : State) :
  truthy_str (stored_special s) = true ->
  special E s = (Ok (stored_special s), s).
Proof. intros H. unfold special. now rewrite H. Qed.

Lemma special_fetch (s : State) :
  truthy_str (stored_special s) = false ->
  special E s
  = match server E (http_log s) (inbox_request E) with
    | Ok resp =>
        (Ok (special_of_page (resp_text resp)),
         set_special (Some (special_of_page (resp_text resp)))
                     (sent (inbox_request E) s))
    | Raise e => (Raise e, sent (inbox_request E) s)
    end.
Proof.
  intros H. unfold special. rewrite H.
  unfold bind at 1. unfold session_get, session_request.
  fold (inbox_request E). fold (sent (inbox_request E) s).
  destruct (server E (http_log s) (inbox_request E)) as [resp|e]; [|reflexivity].
  unfold special_of_page, try_except, bind, lift, ret.
  destruct (re_search special_pattern (resp_text resp)) as [caps|] eqn:Hs.
  - destruct (group_found _ _ _ 2 Hs) as (g & Hg & Hn); [simpl; lia|].
    rewrite Hg. change (Nat.pred 2) with 1%nat in Hn. rewrite Hn. reflexivity.
  - reflexivity.
Qed.

(** ** [login] with a session in place *)

(** C7. With a truthy [_special] on the instance, [login] returns the
    instance at once: no request is sent and nothing changes. *)
Theorem login_is_idempotent (email passwd smsKey : option string) (s : State) :
  truthy_str (stored_special s) = true ->
  login E email passwd smsKey s = (Ok (voice s), s).
Proof. intros H. unfold login. now rewrite H. Qed.

(** ** Stored results *)

(** C2 (as amended). The client keeps two results on the instance.  An
    access to [special] with a truthy stored token returns it without a
    request; otherwise it fetches the inbox page and stores what it finds.
    An access to [contacts] with a stored folder returns it without a
    request; otherwise it calls the contacts feed and stores the folder. *)
Theorem special_and_contacts_are_stored (s : State) :
  (truthy_str (stored_special s) = true ->
   special E s = (Ok (stored_special s), s))
  /\ (truthy_str (stored_special s) = false ->
      http_log (snd (special E s)) = (http_log s ++ [inbox_request E])%list
      /\ forall sp, fst (special E s) = Ok sp ->
                    _special (voice (snd (special E s))) = Some sp)
  /\ (forall f, _contacts (voice s) = Some f -> contacts E s = (Ok f, s))
  /\ (_contacts (voice s) = None ->
      contacts E s
      = match call_xml_page E "contacts" DNone (Some ∅) (Some ∅) s with
        | (Ok f, s') => (Ok f, set_contacts (Some f) s')
        | (Raise e, s') => (Raise e, s')
        end).
Proof.
  split; [apply special_cached|]. split; [|split].
  - intros H. rewrite (special_fetch s H).
    destruct (server E (http_log s) (inbox_request E)) as [resp|e]; simpl.
    + split; [reflexivity|]. now intros sp [= <-].
    + split; [reflexivity|]. discriminate.
  - intros f H. unfold contacts. now rewrite H.
  - intros H. unfold contacts. rewrite H. unfold bind.
    destruct (call_xml_page E "contacts" DNone (Some ∅) (Some ∅) s) as [[f|e] s'];
      reflexivity.
Qed.

End WithEnv.

Lemma login_is_idempotent_witness :
  truthy_str (stored_special signed_in) = true
  /\ login (demo_env login_form accepted 200 false 0) None None None signed_in
     = (Ok (voice signed_in), signed_in).
Proof.
  split; [reflexivity|].
  apply (login_is_idempotent (demo_env login_form accepted 200 false 0)).
  reflexivity.
Defined.

Lemma special_and_contacts_are_stored_witness :
  special (demo_env login_form accepted 200 false 0) with_contacts
  = (Ok (Some "TOKEN"), with_contacts)
  /\ contacts (demo_env login_form accepted 200 false 0) with_contacts
     = (Ok (mkFolder "contacts" ∅), with_contacts).
Proof.
  destruct (special_and_contacts_are_stored
              (demo_env login_form accepted 200 false 0) with_contacts)
    as (Hspecial & _ & Hcontacts & _).
  split.
  - apply Hspecial. reflexivity.
  - apply Hcontacts. reflexivity.
Defined.

(** C2, as stated, fails: the second access to [special], and the second
    access to [contacts], send nothing and return what the first stored. *)
Lemma second_access_sends_nothing :
  let E := demo_env login_form accepted 200 false 0 in
  let s1 := snd (special E fresh) in
  let s2 := snd (contacts E s1) in
  List.length (http_log s1) = 1%nat
  /\ special E s1 = (Ok (Some "TOKEN"), s1)
  /\ List.length (http_log s2) = 2%nat
  /\ contacts E s2 = (Ok (mkFolder "contacts" {[ "totalSize" := PInt 0 ]}), s2).
Proof. vm_compute. repeat split. Qed.

Section SecondFactor.
Variable E : Env.

(** ** Requests *)

Lemma reqdata_truthy_insert (k : string) (v : pyval) (m : gmap string pyval) :
  reqdata_truthy (DDict (<[k := v]> m)) = true.
Proof.
  simpl. rewrite bool_decide_eq_false_2; [reflexivity|].
  apply insert_non_empty.
Qed.

Lemma do_url_sends (url : string) (data : reqdata)
    (headers terms : option (gmap string pyval)) (s : State) :
  do_url E url data headers terms s
  = let rq := mkRequest (if reqdata_truthy data then "POST" else "GET") url
                        data (or_None terms) headers in
    (server E (http_log s) rq, sent rq s).
Proof. reflexivity. Qed.

(** ** The SMS second factor *)

Lemma oathtoolAuth_eq (key : string) (s : State) :
  oathtoolAuth E key s
  = let cmd := "oathtool --totp " ++ key in
    let rq := attempt_request E (shell_output E (shell_log s) cmd) in
    (match server E (http_log s) rq with
     | Ok resp => response_read E resp
     | Raise e => Raise e
     end, sent rq (shell_ran cmd s)).
Proof.
  unfold oathtoolAuth, shell. unfold bind at 1.
  unfold do_page. unfold bind. rewrite do_url_sends.
  unfold dict_of, list_to_map. simpl foldr.
  rewrite reqdata_truthy_insert. simpl.
  unfold attempt_request, dict_of, list_to_map. simpl foldr.
  fold (shell_ran ("oathtool --totp " ++ key) s).
  destruct (server E (http_log s) _) as [resp|e]; reflexivity.
Qed.

Lemma oathtoolAuth_spec (key : string) (s : State) :
  exists rq,
    is_attempt E rq
    /\ http_log (snd (oathtoolAuth E key s)) = (http_log s ++ [rq])%list
    /\ List.length (shell_log (snd (oathtoolAuth E key s)))
       = S (List.length (shell_log s))
    /\ forall c, fst (oathtoolAuth E key s) = Ok c ->
                 last_response_content E (http_log (snd (oathtoolAuth E key s))) c.
Proof.
  rewrite oathtoolAuth_eq. cbv zeta.
  set (rq := attempt_request E _). exists rq. simpl.
  split; [split; reflexivity|]. split; [reflexivity|].
  split; [rewrite length_app; simpl; lia|].
  intros c Hc. exists (http_log s), rq.
  destruct (server E (http_log s) rq) as [resp|e]; [|discriminate].
  exists resp. auto.
Qed.

(** One turn of the loop: announce, wait, try again. *)
Lemma retry_step_spec (key : string) (line : string) (seconds : Z) (s : State) :
  let step := (run print_line line; run sleep seconds; oathtoolAuth E key) in
  exists rq,
    is_attempt E rq
    /\ http_log (snd (step s)) = (http_log s ++ [rq])%list
    /\ List.length (shell_log (snd (step s))) = S (List.length (shell_log s))
    /\ forall c, fst (step s) = Ok c ->
                 last_response_content E (http_log (snd (step s))) c.
Proof.
  cbv zeta. unfold bind at 1. unfold print_line at 1.
  unfold bind at 1. unfold sleep at 1.
  match goal with
  | |- context [oathtoolAuth E key ?s1] =>
      destruct (oathtoolAuth_spec key s1) as (rq & Hrq & Hlog & Hshell & Hlast)
  end.
  exists rq. simpl in Hlog, Hshell. auto.
Qed.

Lemma must_retry_true (content : string) (try_count : nat) :
  must_retry content try_count = true ->
  contains invalid_code_marker content = true /\ (try_count < 5)%nat.
Proof.
  unfold must_retry. intros H. apply andb_true_iff in H as [Hc Hlt].
  apply Nat.ltb_lt in Hlt. auto.
Qed.

Lemma retry_loop_spec (key : string) (try_count : nat) (content : string)
    (s : State) :
  last_response_content E (http_log s) content ->
  exists attempts,
    http_log (snd (retry_loop E key try_count content s))
    = (http_log s ++ attempts)%list
    /\ Forall (is_attempt E) attempts
    /\ (List.length attempts <= 5 - try_count)%nat
    /\ List.length (shell_log (snd (retry_loop E key try_count content s)))
       = (List.length (shell_log s) + List.length attempts)%nat
    /\ forall c, fst (retry_loop E key try_count content s) = Ok c ->
          last_response_content E
            (http_log (snd (retry_loop E key try_count content s))) c
          /\ (contains invalid_code_marker c = true ->
              (5 <= try_count + List.length attempts)%nat).
Proof.
  funelim (retry_loop E key try_count content s).
  - (* the loop is over *)
    clear H Heqcall. rename e into Hstop.
    intros Hlast. exists []. simpl. rewrite app_nil_r.
    split; [reflexivity|]. split; [constructor|]. split; [lia|].
    split; [lia|]. intros c [= <-]. split; [exact Hlast|].
    intros Hmarker. unfold must_retry in Hstop. rewrite Hmarker in Hstop.
    simpl in Hstop. apply Nat.ltb_ge in Hstop. lia.
  - (* one more attempt, answered *)
    clear H0 Heqcall. rename H into IH.
    intros _. apply must_retry_true in Hloop as [_ Hlt].
    destruct (retry_step_spec smsKey (retry_message 10 (try_count + 1)) 10 s)
      as (rq & Hrq & Hlog & Hshell & Hlast).
    cbv zeta in Hlog, Hshell, Hlast. rewrite Heq in Hlog, Hshell, Hlast.
    simpl in Hlog, Hshell, Hlast.
    destruct (IH (Hlast content' eq_refl))
      as (attempts & Hlog' & Hall & Hlen & Hshell' & Hres).
    exists (rq :: attempts).
    rewrite Hlog', Hlog, Hshell', Hshell, <- app_assoc. simpl.
    split; [reflexivity|]. split; [constructor; [exact Hrq|exact Hall]|]. split; [lia|].
    split; [lia|]. intros c Hc. destruct (Hres c Hc) as [Hc' Hn].
    rewrite Hlog', Hlog, <- app_assoc in Hc'. split; [exact Hc'|].
    intros Hmarker. specialize (Hn Hmarker). lia.
  - (* one more attempt, failed *)
    clear H Heqcall.
    intros _. apply must_retry_true in Hloop as [_ Hlt].
    destruct (retry_step_spec smsKey (retry_message 10 (try_count + 1)) 10 s)
      as (rq & Hrq & Hlog & Hshell & Hlast).
    cbv zeta in Hlog, Hshell. rewrite Heq in Hlog, Hshell. simpl in Hlog, Hshell.
    exists [rq]. simpl. rewrite Hlog, Hshell.
    split; [reflexivity|]. split; [constructor; [exact Hrq|constructor]|]. split; [lia|].
    split; [lia|]. discriminate.
Qed.

Lemma smsAuth_eq (smsKey : option string) (key : string) (s : State) :
  supplied_key E smsKey = Some key ->
  smsAuth E smsKey s
  = match b32decode_hex E (remove_spaces key) with
    | Ok hex =>
        match oathtoolAuth E hex s with
        | (Ok content, s1) => retry_loop E hex 1 content s1
        | (Raise e, s1) => (Raise e, s1)
        end
    | Raise e => (Raise e, s)
    end.
Proof.
  intros Hkey. unfold smsAuth. unfold supplied_key in Hkey. rewrite Hkey.
  unfold bind, lift.
  destruct (b32decode_hex E (remove_spaces key)) as [hex|e]; [|reflexivity].
  destruct (oathtoolAuth E hex s) as [[content|e] s1]; reflexivity.
Qed.





End SecondFactor.


Section Actions.
Variable E : Env.

(** ** [download] *)

(** C10 (as amended). [download] reduces a [Message] to its id, fetches
    the download page of that id and raises [DownloadError] when the
    request fails or the answer has an error status, writing no file then.
    Otherwise it opens [<adir>/<id>.mp3] ([adir] being the current
    directory when not given) for writing: when that fails the exception
    of [open] comes out as it is and no file is written; when the write
    fails its exception comes out; else the file holds the content of the
    answer and the path is returned. *)
Theorem download_contract (msg : msg_arg) (adir : option string) (s : State) :
  let id := msg_id_of msg in
  let rq := download_request E id in
  let fn := download_path E id adir in
  download E msg adir s
  = match server E (http_log s) rq with
    | Ok resp =>
        if is_error_status resp then (Raise DownloadError, sent rq s)
        else match open_wb E (files s) fn with
             | Raise e => (Raise e, sent rq s)
             | Ok _ =>
                 match file_write E fn (resp_content resp) with
                 | None => (Ok fn, wrote fn (resp_content resp) (sent rq s))
                 | Some (e, partial) => (Raise e, wrote fn partial (sent rq s))
                 end
             end
    | Raise _ => (Raise DownloadError, sent rq s)
    end
  /\ files (sent rq s) = files s.
Proof.
  cbv zeta. split; [|reflexivity].
  unfold download. unfold bind at 1. unfold try_except.
  unfold bind at 1. rewrite do_url_sends. cbv zeta. simpl reqdata_truthy.
  cbv iota. simpl or_None. fold (download_request E (msg_id_of msg)).
  destruct (server E (http_log s) (download_request E (msg_id_of msg)))
    as [resp|e]; [|reflexivity].
  unfold bind, lift, raise_for_status.
  destruct (is_error_status resp); [reflexivity|].
  unfold ret, write_file, download_path. cbv beta iota zeta. simpl files.
  destruct (open_wb E (files s) _) as [u|e]; [|reflexivity].
  destruct (file_write E _ (resp_content resp)) as [[e partial]|]; reflexivity.
Qed.

(** ** The action endpoints *)

Lemma special_stores (s s1 : State) (sp : option string) :
  special E s = (Ok sp, s1) -> truthy_str sp = true -> stored_special s1 = sp.
Proof.
  intros Hsp Htruthy.
  destruct (truthy_str (stored_special s)) eqn:Hstored.
  - rewrite (special_cached E s Hstored) in Hsp. now injection Hsp as <- <-.
  - rewrite (special_fetch E s Hstored) in Hsp.
    destruct (server E (http_log s) (inbox_request E)) as [resp|e];
      [|discriminate].
    injection Hsp as <- <-. reflexivity.
Qed.

Lemma do_special_page_dict (page : string) (m : gmap string pyval)
    (headers terms : option (gmap string pyval)) (s : State) :
  do_special_page E page (DDict m) headers terms s
  = match special E s with
    | (Ok sp, s1) =>
        if truthy_str sp
        then let rq := mkRequest "POST" (resolve_page E page)
                         (DDict (<["_rnr_se" := opt_val sp]> m))
                         (or_None terms) headers in
             (server E (http_log s1) rq, sent rq s1)
        else (Raise login_required, s1)
    | (Raise e, s1) => (Raise e, s1)
    end.
Proof.
  unfold do_special_page. unfold bind at 1.
  destruct (special E s) as [[sp|e] s1] eqn:Hsp; [|reflexivity].
  unfold bind at 1. unfold assert_.
  destruct (truthy_str sp) eqn:Htruthy; [|reflexivity].
  unfold ret at 1. unfold bind at 1. unfold bind at 1.
  assert (Hstored : stored_special s1 = sp) by (eapply special_stores; eauto).
  rewrite special_cached by (rewrite Hstored; exact Htruthy).
  rewrite Hstored. unfold ret at 1. unfold do_page. rewrite do_url_sends.
  cbv zeta. rewrite reqdata_truthy_insert. reflexivity.
Qed.

Lemma or_None_empty : or_None (Some ∅) = None.
Proof. unfold or_None. now rewrite bool_decide_eq_true_2. Qed.

Lemma validate_response_dict (m : gmap string pyval) :
  validate_response (PDict m)
  = if has_truthy_ok m then Ok tt else Raise (ValidationError (PDict m) "").
Proof.
  unfold validate_response, ok_expression, has_truthy_ok. simpl.
  destruct (m !! "ok") as [v|] eqn:Hok.
  - rewrite bool_decide_eq_true_2 by eauto. destruct (truthy v); reflexivity.
  - rewrite bool_decide_eq_false_2; [reflexivity|]. intros [v Hv]. discriminate.
Qed.

Lemma validate_special_page_eq (page : string) (data : gmap string pyval)
    (s : State) :
  validate_special_page E page data ∅ s
  = match do_special_page E page (DDict data) (Some ∅) (Some ∅) s with
    | (Ok resp, s') => (load_and_validate E resp, s')
    | (Raise e, s') => (Raise e, s')
    end.
Proof.
  unfold validate_special_page. rewrite (left_id_L ∅ (∪)). unfold bind, lift.
  destruct (do_special_page E page (DDict data) (Some ∅) (Some ∅) s)
    as [[resp|e] s']; reflexivity.
Qed.

Lemma messages_post_eq (page : string) (msg : msg_arg)
    (data : gmap string pyval) (s : State) :
  (run messages_post E page [msg] data; ret tt) s
  = match do_special_page E page
            (DDict (<["messages" := PStr (msg_id_of msg)]> data))
            (Some ∅) (Some ∅) s with
    | (Ok resp, s') => (Ok tt, s')
    | (Raise e, s') => (Raise e, s')
    end.
Proof.
  unfold messages_post, bind, ret. simpl.
  destruct (do_special_page E page _ (Some ∅) (Some ∅) s) as [[resp|e] s'];
    reflexivity.
Qed.

(** Every endpoint is one call of [__do_special_page] with its page and its
    data; the validated ones then check the answer. *)
Lemma perform_eq (ep : endpoint) (s : State) :
  perform E ep s
  = match do_special_page E (page_of ep) (DDict (caller_data E ep))
            (Some ∅) (Some ∅) s with
    | (Ok resp, s') =>
        (if validated ep then load_and_validate E resp else Ok tt, s')
    | (Raise e, s') => (Raise e, s')
    end.
Proof.
  destruct ep as [o f t n|o f|n t|m a|m t|m t|m x|m r|ph|ph]; simpl.
  - unfold call. rewrite validate_special_page_eq.
    destruct f, t; reflexivity.
  - unfold cancel. now rewrite validate_special_page_eq.
  - unfold send_sms. now rewrite validate_special_page_eq.
  - unfold archive. now rewrite messages_post_eq.
  - unfold delete. now rewrite messages_post_eq.
  - unfold Message_delete. now rewrite messages_post_eq.
  - unfold Message_star. now rewrite messages_post_eq.
  - unfold Message_mark. now rewrite messages_post_eq.
  - unfold Phone_enable, Phone_call_forwarding. unfold bind at 1. unfold lift.
    rewrite UtilTheory.AttrDict_getattr_total. now rewrite validate_special_page_eq.
  - unfold Phone_disable, Phone_call_forwarding. unfold bind at 1. unfold lift.
    rewrite UtilTheory.AttrDict_getattr_total. now rewrite validate_special_page_eq.
Qed.

(** C6 (as amended). Every action endpoint first needs a truthy session
    token: without one it raises [AssertionError] and sends nothing to its
    page.  With the token it posts the data of the caller augmented with
    ['_rnr_se'].  The endpoints going through [__validate_special_page]
    ([call], [cancel], [send_sms], phone enable and disable) then raise
    [ValidationError] exactly when the JSON object answered lacks a truthy
    ['ok']; the message endpoints ([archive], [delete], [star], [mark]) do
    not look at the answer. *)
Theorem action_endpoint_contract (ep : endpoint) (s : State) :
  match special E s with
  | (Raise e, s1) => perform E ep s = (Raise e, s1)
  | (Ok sp, s1) =>
      if truthy_str sp
      then
        let rq := endpoint_request E ep sp in
        snd (perform E ep s) = sent rq s1
        /\ match server E (http_log s1) rq with
           | Raise e => fst (perform E ep s) = Raise e
           | Ok resp =>
               if validated ep
               then forall m,
                      json_loads E (resp_text resp) = Ok (PDict m) ->
                      fst (perform E ep s)
                      = if has_truthy_ok m then Ok tt
                        else Raise (ValidationError (PDict m) "")
               else fst (perform E ep s) = Ok tt
           end
      else perform E ep s = (Raise login_required, s1)
  end.
Proof.
  rewrite perform_eq, do_special_page_dict.
  destruct (special E s) as [[sp|e] s1]; [|reflexivity].
  destruct (truthy_str sp); [|reflexivity].
  cbv zeta. rewrite or_None_empty. fold (endpoint_request E ep sp).
  destruct (server E (http_log s1) (endpoint_request E ep sp)) as [resp|e];
    simpl; [|auto].
  split; [reflexivity|].
  destruct (validated ep); [|reflexivity].
  intros m Hm. unfold load_and_validate, response_json. rewrite Hm.
  apply validate_response_dict.
Qed.

End Actions.

(** C10, as stated, fails: the request is answered with status 200, yet
    [download] neither writes the file nor returns its path, because the
    directory does not exist and opening the file raises; the exception is
    that of [open], not [DownloadError]. *)
Lemma download_to_missing_directory :
  let E := demo_env login_form "ID3" 200 false 0 in
  let rq := download_request E "f00d" in
  server E (http_log fresh) rq
  = Ok (mkResponse (url_of "DOWNLOAD" ++ "f00d") 200 "ID3" "ID3")
  /\ is_error_status (mkResponse (url_of "DOWNLOAD" ++ "f00d") 200 "ID3" "ID3")
     = false
  /\ download_path E "f00d" (Some "/nonexistent") = "/nonexistent/f00d.mp3"
  /\ open_wb E (files fresh) "/nonexistent/f00d.mp3"
     = Raise (LibraryError "IOError" "No such file or directory")
  /\ fst (download E (MsgId "f00d") (Some "/nonexistent") fresh)
     = Raise (LibraryError "IOError" "No such file or directory")
  /\ files (snd (download E (MsgId "f00d") (Some "/nonexistent") fresh)) = ∅.
Proof. vm_compute. repeat split. Qed.

Lemma action_endpoint_contract_witness :
  let E := demo_env login_form refused 200 false 0 in
  fst (perform E (EpSendSms "5550100" "hello") signed_in)
  = Raise (ValidationError (PDict {[ "ok" := PBool false ]}) "").
Proof.
  intros E.
  pose proof (action_endpoint_contract E (EpSendSms "5550100" "hello") signed_in)
    as H.
  rewrite (special_cached E signed_in eq_refl) in H.
  simpl in H. destruct H as [_ H].
  exact (H {[ "ok" := PBool false ]} eq_refl).
Defined.

(** C6, as stated, fails on the message endpoints: the service refuses the
    request (its answer has a false ['ok']) and [archive] returns normally. *)
Lemma archive_ignores_refusal :
  let E := demo_env login_form refused 200 false 0 in
  let ep := EpArchive (MsgId "f00d") (PInt 1) in
  server E [] (endpoint_request E ep (Some "TOKEN"))
  = Ok (mkResponse (url_of "ARCHIVE") 200 refused refused)
  /\ json_loads E refused = Ok (PDict {[ "ok" := PBool false ]})
  /\ fst (perform E ep signed_in) = Ok tt.
Proof. vm_compute. repeat split. Qed.

Section Login.
Variable E : Env.

(** ** [login] *)

Lemma do_page_answered (page : string) (data : reqdata)
    (headers terms : option (gmap string pyval)) (s : State) :
  always_answers E ->
  exists resp s', do_page E page data headers terms s = (Ok resp, s').
Proof.
  intros Hsrv. unfold do_page. rewrite do_url_sends. cbv zeta.
  destruct (Hsrv (http_log s)
              (mkRequest (if reqdata_truthy data then "POST" else "GET")
                         (resolve_page E page) data (or_None terms) headers))
    as [resp Hresp].
  rewrite Hresp. eauto.
Qed.

Lemma special_answered (s : State) :
  always_answers E -> exists sp s', special E s = (Ok sp, s').
Proof.
  intros Hsrv. destruct (truthy_str (stored_special s)) eqn:Hstored.
  - rewrite (special_cached E s Hstored). eauto.
  - rewrite (special_fetch E s Hstored).
    destruct (Hsrv (http_log s) (inbox_request E)) as [resp Hresp].
    rewrite Hresp. eauto.
Qed.

(** The end of [login], from the state [s4] the sequence leaves. *)
Lemma login_end (s4 s' : State) (sp : option string) :
  special E s4 = (Ok sp, s') ->
  (run confirm_session E; self) s4
  = if truthy_str sp then (Ok (voice s'), s') else (Raise LoginError, s').
Proof.
  intros Hsp. unfold confirm_session, try_except. unfold bind at 1.
  unfold bind at 1. rewrite Hsp. unfold assert_.
  destruct (truthy_str sp); reflexivity.
Qed.

(** The second factor, once [__smsAuth] has handed back [content]. *)
Lemma second_factor_no_token (smsKey : option string) (s2 s3 : State)
    (content : string) :
  smsAuth E smsKey s2 = (Ok content, s3) ->
  re_search smsToken_pattern content = None ->
  second_factor E smsKey s2 = (Raise LoginError, s3).
Proof.
  intros Hsms Hnone. unfold second_factor. rewrite (bind_ok _ _ _ _ _ Hsms).
  unfold try_except, bind, lift. rewrite Hnone. reflexivity.
Qed.

Lemma second_factor_token (smsKey : option string) (s2 s3 s4 : State)
    (content smsToken : string) (resp : Response) :
  smsAuth E smsKey s2 = (Ok content, s3) ->
  group (re_search smsToken_pattern content) 1 = Ok smsToken ->
  do_page E "login" (smsToken_data smsToken) None None s3 = (Ok resp, s4) ->
  second_factor E smsKey s2 = (Ok tt, s4).
Proof.
  intros Hsms Htok Hpost. unfold second_factor. rewrite (bind_ok _ _ _ _ _ Hsms).
  unfold try_except. unfold bind at 1. unfold lift. rewrite Htok.
  unfold bind. fold (smsToken_data smsToken). rewrite Hpost. reflexivity.
Qed.

Lemma smsToken_group (content : string) :
  re_search smsToken_pattern content = None
  \/ exists smsToken, group (re_search smsToken_pattern content) 1 = Ok smsToken.
Proof.
  destruct (re_search smsToken_pattern content) as [caps|] eqn:Hs; [|now left].
  right. destruct (group_found _ _ _ 1 Hs) as (g & Hg & _); [|eauto].
  vm_compute. lia.
Qed.

(** The start of [login], up to the posting of the credentials. *)
Lemma login_start (email passwd smsKey : option string) (s0 s1 s2 : State)
    (page result : Response) (gxf : string) :
  truthy_str (stored_special s0) = false ->
  do_page E "login" DNone None None s0 = (Ok page, s1) ->
  group (re_search gxf_pattern (resp_text page)) 1 = Ok gxf ->
  do_page E "login_post"
    (credentials (login_email E email) (login_passwd E passwd) gxf) None None s1
  = (Ok result, s2) ->
  login E email passwd smsKey s0
  = (run (if startswith (resp_url result) (settings E "SMSAUTH")
          then second_factor E smsKey
          else ret tt);
     run confirm_session E;
     self) s2.
Proof.
  intros Hrun Hpage Hgxf Hpost. unfold login. rewrite Hrun. cbv zeta.
  rewrite (bind_ok _ _ _ _ _ Hpage).
  unfold bind at 1. unfold lift at 1. rewrite Hgxf.
  fold (login_email E email). fold (login_passwd E passwd).
  rewrite (bind_ok _ _ _ _ _ Hpost). reflexivity.
Qed.

(** C3 (as amended). Take a [login] that runs the sequence, with a service
    that answers every request, a sign-in page on which the hidden [gxf]
    field is found, and, when the second factor is asked for, an
    [__smsAuth] that hands back a page.  Then [login] raises [LoginError]
    exactly when the [smsToken] is not found in that page or, the sequence
    being complete, the session token read off the inbox page is falsy;
    otherwise the sequence is complete, the token read off the inbox page
    is truthy, and [login] returns the instance, in the state that reading
    leaves. *)
Theorem login_raises_LoginError_iff (email passwd smsKey : option string)
    (s0 s1 s2 : State) (page result : Response) (gxf : string) :
  always_answers E ->
  truthy_str (stored_special s0) = false ->
  do_page E "login" DNone None None s0 = (Ok page, s1) ->
  group (re_search gxf_pattern (resp_text page)) 1 = Ok gxf ->
  do_page E "login_post"
    (credentials (login_email E email) (login_passwd E passwd) gxf) None None s1
  = (Ok result, s2) ->
  (startswith (resp_url result) (settings E "SMSAUTH") = true ->
   exists content s3, smsAuth E smsKey s2 = (Ok content, s3)) ->
  let r := fst (login E email passwd smsKey s0) in
  let s' := snd (login E email passwd smsKey s0) in
  (r = Raise LoginError
   <-> token_missing E smsKey result s2
       \/ special_falsy_after E smsKey result s2)
  /\ (r <> Raise LoginError ->
      r = Ok (voice s') /\ special_truthy_after E smsKey result s2 s').
Proof.
  intros Hsrv Hrun Hpage Hgxf Hpost Hsms.
  rewrite (login_start email passwd smsKey s0 s1 s2 page result gxf
             Hrun Hpage Hgxf Hpost).
  unfold token_missing, special_falsy_after, special_truthy_after,
    sequence_completes.
  destruct (startswith (resp_url result) (settings E "SMSAUTH")) eqn:Hsmsauth.
  - (* the second factor is asked for *)
    destruct (Hsms eq_refl) as (content & s3 & Hauth).
    destruct (smsToken_group content) as [Hnone|[tok Htok]].
    + (* no smsToken in the page *)
      rewrite (bind_raise _ _ _ _ _
                 (second_factor_no_token smsKey s2 s3 content Hauth Hnone)).
      simpl. split; [|congruence].
      split; [|reflexivity]. intros _. left. split; [reflexivity|]. eauto.
    + destruct (do_page_answered "login" (smsToken_data tok) None None s3 Hsrv)
        as (resp & s4 & Hlogin).
      rewrite (bind_ok _ _ _ _ _
                 (second_factor_token smsKey s2 s3 s4 content tok resp
                    Hauth Htok Hlogin)).
      destruct (special_answered s4 Hsrv) as (sp & s5 & Hsp).
      rewrite (login_end s4 s5 sp Hsp).
      destruct (truthy_str sp) eqn:Htruthy; simpl.
      * split.
        2:{ intros _. split; [reflexivity|]. exists s4, sp.
            split; [|auto]. right. split; [reflexivity|].
            exists content, s3, tok, resp. auto. }
        split; [discriminate|].
        intros [(_ & content' & s3' & Hauth' & Hnone)
               |(s4' & sp' & s5' & Hdone & Hsp' & Hfalsy)].
        -- rewrite Hauth in Hauth'. injection Hauth' as <- <-.
           rewrite Hnone in Htok. discriminate.
        -- destruct Hdone as [[Hno _]|(_ & content' & s3' & tok' & resp' & Hauth'
                                       & Htok' & Hlogin')]; [discriminate|].
           rewrite Hauth in Hauth'. injection Hauth' as <- <-.
           rewrite Htok in Htok'. injection Htok' as <-.
           rewrite Hlogin in Hlogin'. injection Hlogin' as <- <-.
           rewrite Hsp in Hsp'. injection Hsp' as <- <-. congruence.
      * split; [|congruence]. split; [|reflexivity]. intros _. right.
        exists s4, sp, s5. split; [|auto].
        right. split; [reflexivity|]. exists content, s3, tok, resp. auto.
  - (* no second factor *)
    rewrite (bind_ok (ret tt) _ s2 s2 tt eq_refl).
    destruct (special_answered s2 Hsrv) as (sp & s5 & Hsp).
    rewrite (login_end s2 s5 sp Hsp).
    destruct (truthy_str sp) eqn:Htruthy; simpl.
    + split.
      2:{ intros _. split; [reflexivity|]. exists s2, sp.
          split; [|auto]. left. auto. }
      split; [discriminate|].
      intros [[Hyes _]|(s4' & sp' & s5' & Hdone & Hsp' & Hfalsy)];
        [discriminate|].
      destruct Hdone as [[_ ->]|[Hyes _]]; [|discriminate].
      rewrite Hsp in Hsp'. injection Hsp' as <- <-. congruence.
    + split; [|congruence]. split; [|reflexivity]. intros _. right.
      exists s2, sp, s5. split; [|auto]. left. auto.
Qed.

End Login.

Lemma demo_always_answers (login_body action_body : string) (status : Z)
    (two_factor : bool) (rejections : nat) :
  always_answers (demo_env login_body action_body status two_factor rejections).
Proof. intros log rq. eexists. reflexivity. Qed.

Lemma login_raises_LoginError_iff_witness :
  let E := demo_env login_form accepted 200 true 2 in
  let smsKey := Some "MFRG G===" in
  let s1 := snd (do_page E "login" DNone None None fresh) in
  let result := mkResponse (url_of "SMSAUTH") 200 "" "" in
  let s2 := snd (do_page E "login_post"
                   (credentials (login_email E None) (login_passwd E None) "GXF")
                   None None s1) in
  let r := fst (login E None None smsKey fresh) in
  let s' := snd (login E None None smsKey fresh) in
  truthy_str (stored_special fresh) = false
  /\ ((r = Raise LoginError
       <-> token_missing E smsKey result s2
           \/ special_falsy_after E smsKey result s2)
      /\ (r <> Raise LoginError ->
          r = Ok (voice s') /\ special_truthy_after E smsKey result s2 s')).
Proof.
  intros E smsKey s1 result s2 r s'.
  split; [reflexivity|].
  apply (login_raises_LoginError_iff E None None smsKey fresh s1 s2
           (mkResponse (url_of "LOGIN") 200 login_form login_form)
           result "GXF").
  - apply demo_always_answers.
  - reflexivity.
  - vm_compute. reflexivity.
  - vm_compute. reflexivity.
  - vm_compute. reflexivity.
  - intros _. exists sms_challenge, (snd (smsAuth E smsKey s2)).
    vm_compute. reflexivity.
Defined.

(** C3, as stated, fails: on a sign-in page without the hidden [gxf] field
    [login] raises [AttributeError], which is neither [LoginError] nor a
    return of the instance; no second factor was asked for and the inbox
    page was never read. *)
Lemma login_without_gxf_raises_AttributeError :
  let E := demo_env login_form_without_gxf accepted 200 false 0 in
  truthy_str (stored_special fresh) = false
  /\ fst (login E None None None fresh)
     = Raise (AttributeError "'NoneType' object has no attribute 'group'")
  /\ http_log (snd (login E None None None fresh))
     = [mkRequest "GET" (url_of "LOGIN") DNone None None].
Proof. vm_compute. repeat split. Qed.

End VoiceTheory.

(* ===================================================================== *)
(** * More of util.py                                                     *)
(* ===================================================================== *)

Module UtilExtra.
Import Py Lib Util VoiceM FeedSpec VoiceSpec Scenario ExtraScenario.

(** ** [validate_response] *)

(** X1. [validate_response] accepts a decoded response only when it is a
    JSON object with a truthy ['ok'] entry; every other value is refused
    with a [ValidationError] carrying the response, or with the [TypeError]
    of the membership test or subscript.  The [AssertionError] of the
    [assert] never comes out. *)
Theorem validate_response_accepts_iff (response : pyval) :
  (validate_response response = Ok tt
   <-> exists m, response = PDict m /\ has_truthy_ok m = true)
  /\ (forall e, validate_response response = Raise e ->
        e = ValidationError response "" \/ exists msg, e = TypeError msg).
Proof.
  split.
  - split.
    + intros Hok. destruct response as [| b | z | s | l | m];
        try discriminate.
      * unfold validate_response, ok_expression in Hok. simpl in Hok.
        destruct (contains "ok" s); discriminate.
      * unfold validate_response, ok_expression in Hok. simpl in Hok.
        destruct (existsb _ l); discriminate.
      * exists m. split; [reflexivity|].
        rewrite VoiceTheory.validate_response_dict in Hok.
        destruct (has_truthy_ok m); [reflexivity|discriminate].
    + intros (m & -> & Hm). rewrite VoiceTheory.validate_response_dict.
      now rewrite Hm.
  - intros e He. destruct response as [| b | z | s | l | m];
      unfold validate_response, ok_expression in He; simpl in He.
    + injection He as <-. right. eauto.
    + injection He as <-. right. eauto.
    + injection He as <-. right. eauto.
    + destruct (contains "ok" s); injection He as <-; [right|left]; eauto.
    + destruct (existsb _ l); injection He as <-; [right|left]; eauto.
    + destruct (m !! "ok") as [v|] eqn:Hv.
      * rewrite bool_decide_eq_true_2 in He by eauto.
        destruct (truthy v); [discriminate|]. injection He as <-. now left.
      * rewrite bool_decide_eq_false_2 in He by (intros [v Hv']; discriminate).
        injection He as <-. now left.
Qed.

(** ** [XMLParser] *)

Section Parser.
Variable E : Env.

Lemma fold_state_after_complete (nm : string) (attrs : list (string * string))
    (children : list node) (st : option string) :
  fold_left state_after (events_of (Element nm attrs children)) st = None.
Proof.
  change (events_of (Element nm attrs children))
    with ((StartElement nm attrs :: flat_map events_of children)
          ++ [EndElement nm])%list.
  now rewrite fold_left_app.
Qed.

(** X2. A call on a well-formed document leaves the parser in the state
    [attr = None], whatever state an earlier, failed parse had left. *)
Theorem XMLParser_call_well_formed_resets {S : Type} (p : XMLParser)
    (datafunc : M S string) (s : S) (text nm : string)
    (attrs : list (string * string)) (children : list node) :
  fst (datafunc s) = Ok text ->
  fst (expat_parse E text) = events_of (Element nm attrs children) ->
  attr (snd (fst (XMLParser_call E p datafunc s))) = None.
Proof.
  intros Htext Hevents.
  rewrite UtilTheory.XMLParser_call_parser, Htext, Hevents.
  rewrite UtilTheory.feed_extracts.
  exact (fold_state_after_complete nm attrs children _).
Qed.

(** X3. [self.attr] only ever names one of the two text attributes: if it is
    [None], ['json'] or ['html'] before a call, it is so after the call,
    whether the parse succeeds or not. *)
Theorem XMLParser_call_keeps_attr_a_tag {S : Type} (p : XMLParser)
    (datafunc : M S string) (s : S) :
  attr_is_tag (attr p) ->
  attr_is_tag (attr (snd (fst (XMLParser_call E p datafunc s)))).
Proof.
  intros Hp. rewrite UtilTheory.XMLParser_call_parser.
  destruct (fst (datafunc s)) as [text|exc]; [|exact Hp].
  now apply UtilTheory.feed_attr_is_tag.
Qed.

(** X4. On a flat feed (a root that is neither [json] nor [html], whose
    child elements hold character data only) a parser in the state [None]
    extracts exactly the text inside the [json] elements into [json] and
    the text inside the [html] elements into [html]. *)
Theorem XMLParser_call_flat_feed {S : Type} (p : XMLParser)
    (datafunc : M S string) (s : S) (text : string) (doc : node) :
  attr p = None ->
  fst (datafunc s) = Ok text ->
  fst (expat_parse E text) = events_of doc ->
  flat_feed doc = true ->
  json (snd (fst (XMLParser_call E p datafunc s))) = text_inside "json" doc
  /\ html (snd (fst (XMLParser_call E p datafunc s))) = text_inside "html" doc.
Proof.
  intros Hattr Htext Hevents Hflat.
  rewrite UtilTheory.XMLParser_call_parser, Htext, Hevents.
  rewrite UtilTheory.feed_extracts. simpl. rewrite Hattr.
  split; apply UtilTheory.flat_feed_extracts; auto.
Qed.

End Parser.

Lemma XMLParser_call_well_formed_resets_witness :
  let E := demo_env login_form accepted 200 false 0 in
  let stale := mkXMLParser (Some "json") "left over" "" "inbox" in
  fst (ret (S := unit) nested_feed tt) = Ok nested_feed
  /\ fst (expat_parse E nested_feed) = events_of nested_doc
  /\ attr (snd (fst (XMLParser_call E stale (ret nested_feed) tt))) = None.
Proof.
  intros E stale. split; [reflexivity|]. split; [reflexivity|].
  apply (XMLParser_call_well_formed_resets E stale (ret nested_feed) tt
           nested_feed "response" []
           [Element "json" [] [Text "a"; Element "b" [] []; Text "c"]]);
    reflexivity.
Defined.

Lemma XMLParser_call_keeps_attr_a_tag_witness :
  let E := truncated_env in
  let p := XMLParser_init "inbox" in
  let out := XMLParser_call E p (ret truncated_feed) tt in
  attr_is_tag (attr p)
  /\ expat_parse E truncated_feed
     = ([StartElement "response" []; StartElement "json" []],
        Some "no element found: line 1, column 16")
  /\ fst (fst out) = Raise (ParsingError "no element found: line 1, column 16")
  /\ attr (snd (fst out)) = Some "json"
  /\ attr_is_tag (attr (snd (fst out)))
  /\ attr_is_tag
       (attr (snd (fst (XMLParser_call E (snd (fst out)) (ret contacts_feed)
                          tt)))).
Proof.
  intros E p out.
  assert (Hp : attr_is_tag (attr p)) by (left; reflexivity).
  assert (Hout : attr_is_tag (attr (snd (fst out))))
    by exact (XMLParser_call_keeps_attr_a_tag E p (ret truncated_feed) tt Hp).
  split; [exact Hp|]. split; [reflexivity|]. split; [reflexivity|].
  split; [reflexivity|]. split; [exact Hout|].
  exact (XMLParser_call_keeps_attr_a_tag E (snd (fst out)) (ret contacts_feed)
           tt Hout).
Defined.

Lemma XMLParser_call_flat_feed_witness :
  let E := demo_env login_form accepted 200 false 0 in
  let p := XMLParser_init "contacts" in
  attr p = None
  /\ flat_feed contacts_doc = true
  /\ json (snd (fst (XMLParser_call E p (ret contacts_feed) tt)))
     = text_inside "json" contacts_doc
  /\ html (snd (fst (XMLParser_call E p (ret contacts_feed) tt)))
     = text_inside "html" contacts_doc.
Proof.
  intros E p. split; [reflexivity|]. split; [reflexivity|].
  apply (XMLParser_call_flat_feed E p (ret contacts_feed) tt contacts_feed
           contacts_doc); reflexivity.
Defined.

End UtilExtra.

(* ===================================================================== *)
(** * More of voice.py                                                    *)
(* ===================================================================== *)

Module VoiceExtra.
Import Py Lib Util VoiceM VoiceMore FeedSpec VoiceSpec Scenario ExtraScenario ExtraSpec.
Import VoiceTheory.

Lemma bind_Ok_inv {S A B} (m : M S A) (k : A -> M S B) (s s' : S) (b : B) :
  bind m k s = (Ok b, s') ->
  exists a s1, m s = (Ok a, s1) /\ k a s1 = (Ok b, s').
Proof.
  unfold bind. destruct (m s) as [[a|e] s1]; [eauto|discriminate].
Qed.

Lemma truthy_str_nonempty (tok : string) :
  truthy_str (Some tok) = true -> tok <> "".
Proof.
  simpl. destruct (String.eqb_spec tok "") as [->|Hne]; [discriminate|auto].
Qed.

Section Session.
Variable E : Env.

(** ** The [special] property *)

(** X5. The [special] property never returns the empty string: it returns
    [None] or a non-empty token, and a token it returns is the one now
    stored on the instance. *)
Theorem special_returns_no_empty_token (s s' : State) (token : string) :
  special E s = (Ok (Some token), s') ->
  token <> "" /\ stored_special s' = Some token.
Proof.
  intros Hsp.
  assert (Htruthy : truthy_str (Some token) = true).
  { destruct (truthy_str (stored_special s)) eqn:Hstored.
    - rewrite (special_cached E s Hstored) in Hsp.
      injection Hsp as Hsp _. now rewrite Hsp in Hstored.
    - rewrite (special_fetch E s Hstored) in Hsp.
      destruct (server E (http_log s) (inbox_request E)) as [resp|e];
        [|discriminate].
      injection Hsp as Hsp _. rewrite <- Hsp, special_of_page_truthy.
      unfold special_of_page in Hsp.
      destruct (re_search special_pattern (resp_text resp));
        [reflexivity|discriminate]. }
  split; [now apply truthy_str_nonempty|].
  exact (special_stores E s s' (Some token) Hsp Htruthy).
Qed.

(** ** [login] *)

Lemma confirm_session_Ok (s s' : State) :
  confirm_session E s = (Ok tt, s') -> truthy_str (stored_special s') = true.
Proof.
  unfold confirm_session, try_except. unfold bind.
  destruct (special E s) as [[sp|e] s1] eqn:Hsp.
  - unfold assert_. destruct (truthy_str sp) eqn:Htruthy.
    + intros [= <-]. now rewrite (special_stores E s s1 sp Hsp Htruthy).
    + simpl. discriminate.
  - destruct (is_AssertionError e || is_AttributeError e)%bool; discriminate.
Qed.

Lemma login_Ok_has_token (email passwd smsKey : option string)
    (s s' : State) (v : Voice) :
  login E email passwd smsKey s = (Ok v, s') ->
  v = voice s' /\ truthy_str (stored_special s') = true.
Proof.
  intros Hlogin. unfold login in Hlogin.
  destruct (truthy_str (stored_special s)) eqn:Hstored.
  - unfold self in Hlogin. injection Hlogin as <- <-. auto.
  - cbv zeta in Hlogin.
    apply bind_Ok_inv in Hlogin as (page & s1 & _ & Hlogin).
    apply bind_Ok_inv in Hlogin as (gxf & s1' & _ & Hlogin).
    apply bind_Ok_inv in Hlogin as (result & s2 & _ & Hlogin).
    apply bind_Ok_inv in Hlogin as (u & s3 & _ & Hlogin).
    apply bind_Ok_inv in Hlogin as (u' & s4 & Hconfirm & Hself).
    unfold self in Hself. injection Hself as <- <-.
    split; [reflexivity|]. destruct u'. exact (confirm_session_Ok _ _ Hconfirm).
Qed.

(** X6. When [login] returns, the instance it returns holds a truthy
    session token, so that a further [login], whatever its arguments,
    returns at once and sends nothing. *)
Theorem login_returns_with_token (email passwd smsKey : option string)
    (s s' : State) (v : Voice) :
  login E email passwd smsKey s = (Ok v, s') ->
  v = voice s'
  /\ truthy_str (stored_special s') = true
  /\ forall email' passwd' smsKey',
       login E email' passwd' smsKey' s' = (Ok v, s').
Proof.
  intros Hlogin.
  destruct (login_Ok_has_token email passwd smsKey s s' v Hlogin) as [-> Htoken].
  split; [reflexivity|]. split; [exact Htoken|].
  intros email' passwd' smsKey'. unfold login. now rewrite Htoken.
Qed.

(** ** [logout] *)

(** X7. [logout] on an instance on which [_special] was never set (no
    [login], no access to [special]) sends the logout request and then
    fails with the [AttributeError] of [del self._special]. *)
Theorem logout_without_special (s : State) (resp : Response) :
  _special (voice s) = None ->
  server E (http_log s) (logout_request E) = Ok resp ->
  logout E s = (Raise (AttributeError "_special"), sent (logout_request E) s).
Proof.
  intros Habsent Hanswer. unfold logout. unfold bind at 1.
  unfold do_page. rewrite do_url_sends. cbv zeta. simpl reqdata_truthy.
  cbv iota. simpl or_None. fold (logout_request E). rewrite Hanswer.
  unfold bind at 1. unfold del_special. simpl. rewrite Habsent. reflexivity.
Qed.

Lemma special_of_page_None (text : string) :
  special_of_page text = None <-> re_search special_pattern text = None.
Proof.
  unfold special_of_page.
  destruct (re_search special_pattern text) as [caps|] eqn:Hs; [|tauto].
  destruct (group_found _ _ _ 2 Hs) as (g & Hg & Hn); [simpl; lia|].
  change (Nat.pred 2) with 1%nat in Hn. rewrite Hn. split; discriminate.
Qed.

Lemma logout_eq (s : State) :
  logout E s
  = match server E (http_log s) (logout_request E) with
    | Raise e => (Raise e, sent (logout_request E) s)
    | Ok _ =>
        match _special (voice s) with
        | None => (Raise (AttributeError "_special"), sent (logout_request E) s)
        | Some _ =>
            match server E (http_log s ++ [logout_request E]) (inbox_request E)
            with
            | Raise e =>
                (Raise e,
                 sent (inbox_request E)
                      (set_special None (sent (logout_request E) s)))
            | Ok inbox =>
                let s' := set_special (Some (special_of_page (resp_text inbox)))
                            (sent (inbox_request E) (sent (logout_request E) s))
                in
                match special_of_page (resp_text inbox) with
                | None => (Ok (voice s'), s')
                | Some _ => (Raise (AssertionError ""), s')
                end
            end
        end
    end.
Proof.
  unfold logout. unfold bind at 1.
  unfold do_page. rewrite do_url_sends. cbv zeta. simpl reqdata_truthy.
  cbv iota. simpl or_None. fold (logout_request E).
  destruct (server E (http_log s) (logout_request E)) as [resp|e];
    [|reflexivity].
  unfold bind at 1. unfold del_special. simpl voice.
  destruct (_special (voice s)) as [x|] eqn:Hx; [|reflexivity].
  unfold bind at 1.
  rewrite (special_fetch E (set_special None (sent (logout_request E) s)) eq_refl).
  simpl http_log.
  destruct (server E (http_log s ++ [logout_request E]) (inbox_request E))
    as [inbox|e]; [|reflexivity].
  cbv zeta. destruct (special_of_page (resp_text inbox)); reflexivity.
Qed.

(** X8. [logout] returns exactly when the logout request is answered,
    [_special] was set on the instance, and the inbox page, requested right
    after the logout page, is answered and shows no session token.  It then
    returns the instance, in the state [logged_out]: these two requests
    sent and [_special = None], so that the next [login] runs the
    authentication sequence again. *)
Theorem logout_returns_without_token (s s' : State) (v : Voice) :
  (logout E s = (Ok v, s')
   <-> exists resp inbox,
         server E (http_log s) (logout_request E) = Ok resp
         /\ is_Some (_special (voice s))
         /\ server E (http_log s ++ [logout_request E]) (inbox_request E)
            = Ok inbox
         /\ re_search special_pattern (resp_text inbox) = None
         /\ s' = logged_out E s
         /\ v = voice s')
  /\ (logout E s = (Ok v, s') ->
      v = voice s'
      /\ _special (voice s') = Some None
      /\ truthy_str (stored_special s') = false).
Proof.
  assert (Hiff : logout E s = (Ok v, s')
   <-> exists resp inbox,
         server E (http_log s) (logout_request E) = Ok resp
         /\ is_Some (_special (voice s))
         /\ server E (http_log s ++ [logout_request E]) (inbox_request E)
            = Ok inbox
         /\ re_search special_pattern (resp_text inbox) = None
         /\ s' = logged_out E s
         /\ v = voice s').
  { rewrite logout_eq. split.
    - destruct (server E (http_log s) (logout_request E)) as [resp|e];
        [|discriminate].
      destruct (_special (voice s)) as [x|] eqn:Hx; [|discriminate].
      destruct (server E (http_log s ++ [logout_request E]) (inbox_request E))
        as [inbox|e]; [|discriminate].
      cbv zeta. destruct (special_of_page (resp_text inbox)) eqn:Hpage;
        [discriminate|].
      intros [= <- <-]. exists resp, inbox.
      split; [reflexivity|]. split; [eauto|]. split; [reflexivity|].
      split; [now apply special_of_page_None|]. split; reflexivity.
    - intros (resp & inbox & -> & [x ->] & -> & Hnone & -> & ->).
      apply special_of_page_None in Hnone. cbv zeta. rewrite Hnone.
      reflexivity. }
  split; [exact Hiff|].
  intros Hlogout. apply Hiff in Hlogout
    as (resp & inbox & _ & _ & _ & _ & -> & ->).
  split; [reflexivity|]. split; reflexivity.
Qed.

(** ** Feeds *)

Lemma do_special_page_no_session (page : string) (data : reqdata)
    (headers terms : option (gmap string pyval)) (s s1 : State)
    (sp : option string) :
  special E s = (Ok sp, s1) -> truthy_str sp = false ->
  do_special_page E page data headers terms s = (Raise login_required, s1).
Proof.
  intros Hsp Hfalsy. unfold do_special_page.
  rewrite (bind_ok _ _ _ _ _ Hsp). unfold bind at 1. unfold assert_.
  rewrite Hfalsy. reflexivity.
Qed.

Lemma do_special_page_none (page : string)
    (headers terms : option (gmap string pyval)) (s s1 : State)
    (sp : option string) :
  special E s = (Ok sp, s1) -> truthy_str sp = true ->
  do_special_page E page DNone headers terms s
  = let rq := mkRequest "GET" (resolve_page E page) DNone (or_None terms)
                        headers in
    (server E (http_log s1) rq, sent rq s1).
Proof.
  intros Hsp Htruthy. unfold do_special_page.
  rewrite (bind_ok _ _ _ _ _ Hsp). unfold bind at 1. unfold assert_.
  rewrite Htruthy. unfold ret at 1. unfold bind at 1. unfold ret at 1.
  unfold do_page. now rewrite do_url_sends.
Qed.

Lemma call_xml_page_getter_fails (page : string) (data : reqdata)
    (headers terms : option (gmap string pyval)) (s s' : State) (e : exn) :
  getter E page data headers terms s = (Raise e, s') ->
  call_xml_page E page data headers terms s
  = (Raise (ParsingError (exn_str e)), s').
Proof.
  intros Hget. unfold call_xml_page, get_xml_page, XMLParser_call.
  now rewrite Hget.
Qed.

(** X9. Calling a feed ([contacts], [search], a folder) without a session
    does not raise the [AssertionError] of [__do_special_page]: the parser
    wraps it, and what comes out is a [ParsingError] with the message of
    the assertion.  Nothing is sent to the feed. *)
Theorem feed_call_without_session (page : string) (data : reqdata)
    (headers terms : option (gmap string pyval)) (s s1 : State)
    (sp : option string) :
  special E s = (Ok sp, s1) -> truthy_str sp = false ->
  call_xml_page E page data headers terms s
  = (Raise (ParsingError "You must login before using this page"), s1).
Proof.
  intros Hsp Hfalsy.
  apply (call_xml_page_getter_fails page data headers terms s s1 login_required).
  unfold getter.
  now rewrite (bind_raise _ _ _ _ _
                 (do_special_page_no_session _ data headers terms s s1 sp
                    Hsp Hfalsy)).
Qed.

Lemma call_xml_page_state (page : string) (data : reqdata)
    (headers terms : option (gmap string pyval)) (s : State) :
  snd (call_xml_page E page data headers terms s)
  = snd (getter E page data headers terms s).
Proof.
  unfold call_xml_page, get_xml_page, XMLParser_call.
  destruct (getter E page data headers terms s) as [[text|e] s']; simpl;
    [|reflexivity].
  destruct (expat_parse E text) as [events [msg|]]; reflexivity.
Qed.

(** X10. [search] needs a session; with one, it sends a single GET to the
    search feed, without a body and without the ['_rnr_se'] token, the
    query travelling as the URL parameter [q]. *)
Theorem search_request (query : string) (s s1 : State) (sp : option string) :
  special E s = (Ok sp, s1) -> truthy_str sp = true ->
  snd (search E query s)
  = sent (mkRequest "GET" (settings E "XML_SEARCH") DNone
            (Some {[ "q" := PStr query ]}) (Some ∅)) s1.
Proof.
  intros Hsp Htruthy. unfold search. rewrite call_xml_page_state.
  unfold getter. unfold bind.
  rewrite (do_special_page_none _ _ _ s s1 sp Hsp Htruthy). cbv zeta.
  assert (Hq : or_None (Some (dict_of [("q", PStr query)]))
               = Some {[ "q" := PStr query ]}).
  { unfold or_None, dict_of. simpl list_to_map.
    rewrite bool_decide_eq_false_2 by apply insert_non_empty.
    now rewrite insert_empty. }
  rewrite Hq.
  destruct (server E (http_log s1) _) as [resp|e]; reflexivity.
Qed.

(** ** [contacts] *)

Lemma special_keeps_contacts (s : State) :
  _contacts (voice (snd (special E s))) = _contacts (voice s).
Proof.
  destruct (truthy_str (stored_special s)) eqn:Hstored.
  - now rewrite (special_cached E s Hstored).
  - rewrite (special_fetch E s Hstored).
    destruct (server E (http_log s) (inbox_request E)); reflexivity.
Qed.

Lemma getter_keeps_contacts (page : string)
    (headers terms : option (gmap string pyval)) (s : State) :
  _contacts (voice (snd (getter E page DNone headers terms s)))
  = _contacts (voice s).
Proof.
  pose proof (special_keeps_contacts s) as Hkeep.
  unfold getter. unfold bind.
  destruct (special E s) as [[sp|e] s1] eqn:Hsp.
  - destruct (truthy_str sp) eqn:Htruthy.
    + rewrite (do_special_page_none _ _ _ s s1 sp Hsp Htruthy). cbv zeta.
      destruct (server E (http_log s1) _); exact Hkeep.
    + rewrite (do_special_page_no_session _ DNone _ _ s s1 sp Hsp Htruthy).
      exact Hkeep.
  - unfold do_special_page. rewrite (bind_raise _ _ _ _ _ Hsp). exact Hkeep.
Qed.

(** X11. A failed [contacts] retrieval stores nothing: [_contacts] stays
    absent, so that the next access tries again. *)
Theorem contacts_failure_not_stored (s s' : State) (e : exn) :
  _contacts (voice s) = None ->
  contacts E s = (Raise e, s') ->
  _contacts (voice s') = None.
Proof.
  intros Habsent Hfail. unfold contacts in Hfail. rewrite Habsent in Hfail.
  unfold bind in Hfail.
  pose proof (call_xml_page_state "contacts" DNone (Some ∅) (Some ∅) s) as Hst.
  pose proof (getter_keeps_contacts "contacts" (Some ∅) (Some ∅) s) as Hkeep.
  destruct (call_xml_page E "contacts" DNone (Some ∅) (Some ∅) s)
    as [[f|e'] s1]; [discriminate|].
  injection Hfail as _ <-. simpl in Hst. rewrite Hst, Hkeep. exact Habsent.
Qed.

Lemma contacts_Ok_stored (s s' : State) (f : Folder) :
  contacts E s = (Ok f, s') -> _contacts (voice s') = Some f.
Proof.
  unfold contacts. destruct (_contacts (voice s)) as [f0|] eqn:Hc.
  - intros [= <- <-]. exact Hc.
  - unfold bind.
    destruct (call_xml_page E "contacts" DNone (Some ∅) (Some ∅) s)
      as [[f1|e] s1]; [|discriminate].
    intros [= <- <-]. reflexivity.
Qed.

(** X19. The [settings] property rides on the stored contacts: after an
    access that returned, every further access returns the same settings
    without sending anything. *)
Theorem settings_reuses_contacts (s s' : State) (d : gmap string pyval) :
  Voice_settings E s = (Ok d, s') ->
  Voice_settings E s' = (Ok d, s').
Proof.
  intros Hfirst. unfold Voice_settings in Hfirst.
  apply bind_Ok_inv in Hfirst as (f & s1 & Hcontacts & Hrest).
  apply bind_Ok_inv in Hrest as (v & s2 & Hitem & Hinit).
  unfold lift in Hitem, Hinit. injection Hitem as Hitem <-.
  injection Hinit as Hinit <-.
  apply contacts_Ok_stored in Hcontacts.
  unfold Voice_settings, contacts, bind, lift. rewrite Hcontacts.
  now rewrite Hitem, Hinit.
Qed.

(** ** Action endpoints *)

(** X12. With a session token stored, an action endpoint sends exactly one
    request, the POST carrying that token: the inbox page is not read, and
    the instance, the files and the shell are left as they were. *)
Theorem perform_with_stored_token (ep : endpoint) (s : State) :
  truthy_str (stored_special s) = true ->
  snd (perform E ep s) = sent (endpoint_request E ep (stored_special s)) s.
Proof.
  intros Hstored.
  rewrite perform_eq, do_special_page_dict, (special_cached E s Hstored).
  rewrite Hstored. cbv zeta. rewrite or_None_empty.
  fold (endpoint_request E ep (stored_special s)).
  destruct (server E (http_log s) _) as [resp|e]; reflexivity.
Qed.

(** ** The SMS second factor *)

Lemma retry_step_state (key line : string) (seconds : Z) (s : State) :
  let out := (run print_line line; run sleep seconds; oathtoolAuth E key) s in
  slept (snd out) = slept s + seconds
  /\ printed (snd out) = (printed s ++ [line])%list
  /\ exists rq, http_log (snd out) = (http_log s ++ [rq])%list
                /\ (forall content, fst out = Ok content ->
                      exists resp, server E (http_log s) rq = Ok resp
                                   /\ response_read E resp = Ok content).
Proof.
  cbv zeta.
  change ((run print_line line; run sleep seconds; oathtoolAuth E key) s)
    with (oathtoolAuth E key
            (mkState (voice s) (http_log s) (shell_log s) (slept s + seconds)
                     (printed s ++ [line]) (files s))).
  rewrite oathtoolAuth_eq. cbv zeta.
  simpl. split; [reflexivity|]. split; [reflexivity|].
  eexists. split; [reflexivity|]. intros content Hc.
  destruct (server E (http_log s) _) as [resp|e]; [eauto|discriminate].
Qed.

Lemma retry_loop_sleeps (key : string) (try_count : nat) (content : string)
    (s : State) :
  exists retries : nat,
    (retries <= 5 - try_count)%nat
    /\ List.length (http_log (snd (retry_loop E key try_count content s)))
       = (List.length (http_log s) + retries)%nat
    /\ slept (snd (retry_loop E key try_count content s))
       = slept s + 10 * Z.of_nat retries
    /\ List.length (printed (snd (retry_loop E key try_count content s)))
       = (List.length (printed s) + retries)%nat.
Proof.
  funelim (retry_loop E key try_count content s).
  - exists 0%nat. simpl. repeat split; lia.
  - clear H0 Heqcall. destruct H as (retries & Hle & Hlog & Hslept & Hprinted).
    apply must_retry_true in Hloop as [_ Hlt].
    destruct (retry_step_state smsKey (retry_message 10 (try_count + 1)) 10 s)
      as (Hs & Hp & rq & Hl & _).
    cbv zeta in Hs, Hp, Hl. rewrite Heq in Hs, Hp, Hl. simpl in Hs, Hp, Hl.
    exists (S retries). rewrite Hlog, Hslept, Hprinted, Hs, Hp, Hl.
    rewrite !length_app. simpl. repeat split; lia.
  - clear H Heqcall. apply must_retry_true in Hloop as [_ Hlt].
    destruct (retry_step_state smsKey (retry_message 10 (try_count + 1)) 10 s)
      as (Hs & Hp & rq & Hl & _).
    cbv zeta in Hs, Hp, Hl. rewrite Heq in Hs, Hp, Hl. simpl in Hs, Hp, Hl.
    exists 1%nat. simpl. rewrite Hs, Hp, Hl. rewrite !length_app. simpl.
    repeat split; lia.
Qed.

(** X13. With an smsKey, [__smsAuth] sleeps 10 seconds and prints one line
    before each re-attempt and at no other time: after [n] attempts it has
    slept [10 * (n - 1)] seconds, 40 at most. *)
Theorem smsAuth_sleeps_between_attempts (smsKey : option string) (key : string)
    (s : State) :
  supplied_key E smsKey = Some key ->
  exists attempts : nat,
    (attempts <= 5)%nat
    /\ List.length (http_log (snd (smsAuth E smsKey s)))
       = (List.length (http_log s) + attempts)%nat
    /\ slept (snd (smsAuth E smsKey s))
       = slept s + 10 * Z.of_nat (attempts - 1)
    /\ List.length (printed (snd (smsAuth E smsKey s)))
       = (List.length (printed s) + (attempts - 1))%nat
    /\ slept (snd (smsAuth E smsKey s)) <= slept s + 40.
Proof.
  intros Hkey. rewrite (smsAuth_eq E smsKey key s Hkey).
  destruct (b32decode_hex E (remove_spaces key)) as [hex|e].
  - rewrite oathtoolAuth_eq. cbv zeta.
    set (rq := attempt_request E _). set (s1 := sent rq _).
    destruct (match server E (http_log s) rq with
              | Ok resp => response_read E resp
              | Raise e => Raise e
              end) as [content|e].
    + destruct (retry_loop_sleeps hex 1 content s1)
        as (retries & Hle & Hlog & Hslept & Hprinted).
      exists (S retries). rewrite Hlog, Hslept, Hprinted.
      subst s1. simpl. rewrite length_app. simpl.
      replace (retries - 0)%nat with retries by lia.
      repeat split; lia.
    + exists 1%nat. subst s1. simpl. rewrite length_app. simpl.
      repeat split; lia.
  - exists 0%nat. simpl. repeat split; lia.
Qed.

Lemma retry_loop_rejections (key : string) (try_count : nat) (content : string)
    (s : State) :
  forall before rq resp,
    http_log s = (before ++ [rq])%list ->
    server E before rq = Ok resp ->
    response_read E resp = Ok content ->
    exists attempts,
      http_log (snd (retry_loop E key try_count content s))
      = (http_log s ++ attempts)%list
      /\ all_but_last_rejected E before (rq :: attempts).
Proof.
  funelim (retry_loop E key try_count content s);
    intros before rq0 resp0 Hlog0 Hserver0 Hread0.
  - exists []. simpl. now rewrite app_nil_r.
  - clear H0 Heqcall. rename H into IH.
    apply must_retry_true in Hloop as [Hmarker _].
    destruct (retry_step_state smsKey (retry_message 10 (try_count + 1)) 10 s)
      as (_ & _ & rq & Hl & Hanswer).
    cbv zeta in Hl, Hanswer. rewrite Heq in Hl, Hanswer. simpl in Hl, Hanswer.
    destruct (Hanswer content' eq_refl) as (resp & Hserver & Hread).
    destruct (IH (http_log s) rq resp Hl Hserver Hread)
      as (attempts & Hlog & Hall).
    exists (rq :: attempts). split.
    { rewrite Hlog, Hl. now rewrite <- app_assoc. }
    simpl. split.
    + exists resp0, content. auto.
    + rewrite <- Hlog0. exact Hall.
  - clear H Heqcall. apply must_retry_true in Hloop as [Hmarker _].
    destruct (retry_step_state smsKey (retry_message 10 (try_count + 1)) 10 s)
      as (_ & _ & rq & Hl & _).
    cbv zeta in Hl. rewrite Heq in Hl. simpl in Hl.
    exists [rq]. simpl. rewrite Hl. split; [reflexivity|].
    split; [|exact I]. exists resp0, content. auto.
Qed.

(** X14. With an smsKey, [__smsAuth] re-attempts only after a rejection:
    every attempt but the last was answered with a page carrying the
    invalid-code marker. *)
Theorem smsAuth_retries_only_after_rejection (smsKey : option string)
    (key : string) (s : State) :
  supplied_key E smsKey = Some key ->
  exists attempts,
    http_log (snd (smsAuth E smsKey s)) = (http_log s ++ attempts)%list
    /\ all_but_last_rejected E (http_log s) attempts.
Proof.
  intros Hkey. rewrite (smsAuth_eq E smsKey key s Hkey).
  destruct (b32decode_hex E (remove_spaces key)) as [hex|e].
  - rewrite oathtoolAuth_eq. cbv zeta.
    set (rq := attempt_request E _). set (s1 := sent rq _).
    destruct (server E (http_log s) rq) as [resp|e] eqn:Hserver.
    + destruct (response_read E resp) as [content|e] eqn:Hread.
      * destruct (retry_loop_rejections hex 1 content s1 (http_log s) rq resp
                    eq_refl Hserver Hread) as (attempts & Hlog & Hall).
        exists (rq :: attempts). rewrite Hlog. subst s1. simpl.
        rewrite <- app_assoc. split; [reflexivity|exact Hall].
      * exists [rq]. simpl. auto.
    + exists [rq]. simpl. auto.
  - exists []. simpl. now rewrite app_nil_r.
Qed.

Lemma remove_spaces_idempotent (k : string) :
  remove_spaces (remove_spaces k) = remove_spaces k.
Proof.
  induction k as [|c k IH]; [reflexivity|]. simpl.
  destruct (Ascii.eqb c " ") eqn:Hc; [exact IH|].
  simpl. now rewrite Hc, IH.
Qed.

(** X15. Spaces in the smsKey do not count: two keys that differ only in
    spaces drive [__smsAuth] in the same way. *)
Theorem smsAuth_ignores_spaces (k1 k2 : string) (s : State) :
  remove_spaces k1 = remove_spaces k2 ->
  smsAuth E (Some k1) s = smsAuth E (Some k2) s
  /\ smsAuth E (Some k1) s = smsAuth E (Some (remove_spaces k1)) s.
Proof.
  intros Hsame.
  rewrite (smsAuth_eq E (Some k1) k1 s eq_refl).
  rewrite (smsAuth_eq E (Some k2) k2 s eq_refl).
  rewrite (smsAuth_eq E (Some (remove_spaces k1)) (remove_spaces k1) s eq_refl).
  now rewrite remove_spaces_idempotent, Hsame.
Qed.

End Session.

(** ** The tokens the patterns capture *)

Lemma re_match_plus (k : cclass) (p : regex) (s : string)
    (opened : option string) (caps res : list string) :
  re_match (RPlus k :: p) s opened caps = Some res ->
  exists n, (1 <= n <= span k s)%nat
            /\ re_match p (str_drop n s) (record opened (str_take n s)) caps
               = Some res.
Proof. intros H. now apply first_down_Some in H. Qed.

Lemma str_take_span (k : cclass) (n : nat) (s : string) :
  (n <= span k s)%nat -> str_forall (cclass_matches k) (str_take n s) = true.
Proof.
  revert s. induction n as [|n IH]; intros s Hn; [reflexivity|].
  destruct s as [|x rest]; [reflexivity|]. simpl in Hn |- *.
  destruct (cclass_matches k x); [|lia]. simpl. apply IH. lia.
Qed.

Lemma smsToken_pattern_match (s : string) (res : list string) :
  re_match smsToken_pattern s None [] = Some res ->
  exists token,
    res = [token] /\ token <> ""
    /\ str_forall (cclass_matches (CNot "034"%char)) token = true.
Proof.
  intros H. unfold smsToken_pattern in H.
  apply re_match_lit in H as (s1 & _ & H).
  apply re_match_lit in H as (s2 & _ & H).
  change ([RPlus CSpace] ++ ?p)%list with (RPlus CSpace :: p) in H.
  apply re_match_plus in H as (n & _ & H).
  apply re_match_lit in H as (s3 & _ & H).
  apply re_match_lit in H as (s4 & _ & H).
  change ([ROpen; RPlus ?k; RClose] ++ ?p)%list
    with (ROpen :: RPlus k :: RClose :: (p ++ []))%list in H.
  cbn [re_match] in H.
  apply first_down_Some in H as (m & Hm & H).
  apply re_match_lit in H as (s5 & _ & H).
  injection H as <-. exists (str_take m s4). split; [reflexivity|].
  split; [now apply (str_take_nonempty m (CNot "034"%char))|].
  apply str_take_span. lia.
Qed.

Lemma gxf_pattern_match (s : string) (res : list string) :
  re_match gxf_pattern s None [] = Some res ->
  exists token,
    res = [token] /\ token <> ""
    /\ str_forall (cclass_matches CDot) token = true.
Proof.
  intros H. unfold gxf_pattern in H.
  apply re_match_lit in H as (s1 & _ & H).
  apply re_match_lit in H as (s2 & _ & H).
  change ([RPlus CSpace] ++ ?p)%list with (RPlus CSpace :: p) in H.
  apply re_match_plus in H as (n & _ & H).
  apply re_match_lit in H as (s3 & _ & H).
  apply re_match_lit in H as (s4 & _ & H).
  change ([RPlus CSpace] ++ ?p)%list with (RPlus CSpace :: p) in H.
  apply re_match_plus in H as (n' & _ & H).
  apply re_match_lit in H as (s5 & _ & H).
  apply re_match_lit in H as (s6 & _ & H).
  change ([ROpen; RPlus ?k; RClose] ++ ?p)%list
    with (ROpen :: RPlus k :: RClose :: (p ++ []))%list in H.
  cbn [re_match] in H.
  apply first_down_Some in H as (m & Hm & H).
  apply re_match_lit in H as (s7 & _ & H).
  injection H as <-. exists (str_take m s6). split; [reflexivity|].
  split; [now apply (str_take_nonempty m CDot)|].
  apply str_take_span. lia.
Qed.

Lemma group_1_of_single (p : regex) (content token : string) :
  (forall s res, re_match p s None [] = Some res -> exists t, res = [t]) ->
  group (re_search p content) 1 = Ok token ->
  exists s, re_match p s None [] = Some [token].
Proof.
  intros Hsingle Hgroup. unfold group in Hgroup.
  destruct (re_search p content) as [caps|] eqn:Hs; [|discriminate].
  apply re_search_match in Hs as (s & Hm). exists s.
  destruct (Hsingle s caps Hm) as (t & ->). simpl in Hgroup.
  now injection Hgroup as ->.
Qed.

(** X18. What [login] reads off its pages is never empty: the [gxf] value
    it posts back is a non-empty run of characters of one line, and the
    [smsToken] it posts back is non-empty and holds no double quote. *)
Theorem login_tokens_well_formed (content token : string) :
  (group (re_search gxf_pattern content) 1 = Ok token ->
   token <> "" /\ str_forall (cclass_matches CDot) token = true)
  /\ (group (re_search smsToken_pattern content) 1 = Ok token ->
      token <> ""
      /\ str_forall (cclass_matches (CNot "034"%char)) token = true).
Proof.
  split; intros Hgroup.
  - apply group_1_of_single in Hgroup as (s & Hm).
    + apply gxf_pattern_match in Hm as (t & [= <-] & Hne & Hall). auto.
    + intros s res Hm. apply gxf_pattern_match in Hm as (t & -> & _). eauto.
  - apply group_1_of_single in Hgroup as (s & Hm).
    + apply smsToken_pattern_match in Hm as (t & [= <-] & Hne & Hall). auto.
    + intros s res Hm. apply smsToken_pattern_match in Hm as (t & -> & _). eauto.
Qed.

(** ** Witnesses *)

Lemma special_returns_no_empty_token_witness :
  let E := demo_env login_form accepted 200 false 0 in
  special E fresh = (Ok (Some "TOKEN"), snd (special E fresh))
  /\ "TOKEN" <> "" /\ stored_special (snd (special E fresh)) = Some "TOKEN".
Proof.
  intros E. split; [vm_compute; reflexivity|].
  apply (special_returns_no_empty_token E fresh (snd (special E fresh)) "TOKEN").
  vm_compute. reflexivity.
Defined.

Lemma login_returns_with_token_witness :
  let E := demo_env login_form accepted 200 false 0 in
  let v := mkVoice (Some (Some "TOKEN")) None in
  let s' := snd (login E None None None fresh) in
  login E None None None fresh = (Ok v, s')
  /\ v = voice s'
  /\ truthy_str (stored_special s') = true
  /\ forall email' passwd' smsKey',
       login E email' passwd' smsKey' s' = (Ok v, s').
Proof.
  intros E v s'. split; [vm_compute; reflexivity|].
  apply (login_returns_with_token E None None None fresh s' v).
  vm_compute. reflexivity.
Defined.

Lemma logout_without_special_witness :
  let E := demo_env login_form accepted 200 false 0 in
  _special (voice fresh) = None
  /\ logout E fresh
     = (Raise (AttributeError "_special"), sent (logout_request E) fresh).
Proof.
  intros E. split; [reflexivity|].
  apply (logout_without_special E fresh
           (mkResponse (url_of "LOGOUT") 200 accepted accepted));
    reflexivity.
Defined.

Lemma logout_returns_without_token_witness :
  let E := logout_env in
  let s' := logged_out E signed_in in
  let v := mkVoice (Some None) None in
  logout E signed_in = (Ok v, s')
  /\ http_log s'
     = [mkRequest "GET" (url_of "LOGOUT") DNone None None;
        mkRequest "GET" (url_of "INBOX") DNone None None]
  /\ v = voice s'
  /\ _special (voice s') = Some None
  /\ truthy_str (stored_special s') = false.
Proof.
  intros E s' v.
  destruct (logout_returns_without_token E signed_in s' v) as [Hiff Hret].
  assert (Hlogout : logout E signed_in = (Ok v, s')).
  { apply Hiff.
    exists (mkResponse (url_of "LOGOUT") 200 accepted accepted),
           (mkResponse (url_of "INBOX") 200 login_form_without_gxf
                       login_form_without_gxf).
    split; [reflexivity|]. split; [eexists; reflexivity|].
    split; [reflexivity|]. split; [vm_compute; reflexivity|].
    split; reflexivity. }
  split; [exact Hlogout|]. split; [reflexivity|]. exact (Hret Hlogout).
Defined.

Lemma feed_call_without_session_witness :
  let s1 := snd (special logout_env signed_out) in
  special logout_env signed_out = (Ok None, s1)
  /\ call_xml_page logout_env "inbox" DNone (Some ∅) (Some ∅) signed_out
     = (Raise (ParsingError "You must login before using this page"), s1).
Proof.
  intros s1. split; [vm_compute; reflexivity|].
  apply (feed_call_without_session logout_env "inbox" DNone (Some ∅) (Some ∅)
           signed_out s1 None); [vm_compute|]; reflexivity.
Defined.

Lemma search_request_witness :
  let E := demo_env login_form accepted 200 false 0 in
  special E signed_in = (Ok (Some "TOKEN"), signed_in)
  /\ snd (search E "pizza" signed_in)
     = sent (mkRequest "GET" (url_of "XML_SEARCH") DNone
               (Some {[ "q" := PStr "pizza" ]}) (Some ∅)) signed_in.
Proof.
  intros E. split; [reflexivity|].
  apply (search_request E "pizza" signed_in signed_in (Some "TOKEN"));
    reflexivity.
Defined.

Lemma contacts_failure_not_stored_witness :
  let s' := snd (contacts logout_env signed_out) in
  _contacts (voice signed_out) = None
  /\ contacts logout_env signed_out
     = (Raise (ParsingError "You must login before using this page"), s')
  /\ _contacts (voice s') = None.
Proof.
  intros s'. split; [reflexivity|]. split; [vm_compute; reflexivity|].
  apply (contacts_failure_not_stored logout_env signed_out s'
           (ParsingError "You must login before using this page"));
    [|vm_compute]; reflexivity.
Defined.

Lemma settings_reuses_contacts_witness :
  let s' := snd (Voice_settings settings_env signed_in) in
  Voice_settings settings_env signed_in
  = (Ok {[ "language" := PStr "en" ]}, s')
  /\ Voice_settings settings_env s' = (Ok {[ "language" := PStr "en" ]}, s').
Proof.
  intros s'. split; [vm_compute; reflexivity|].
  apply (settings_reuses_contacts settings_env signed_in s').
  vm_compute. reflexivity.
Defined.

Lemma perform_with_stored_token_witness :
  let E := demo_env login_form accepted 200 false 0 in
  let ep := EpCancel None None in
  truthy_str (stored_special signed_in) = true
  /\ snd (perform E ep signed_in)
     = sent (endpoint_request E ep (stored_special signed_in)) signed_in.
Proof.
  intros E ep. split; [reflexivity|].
  apply (perform_with_stored_token E ep signed_in). reflexivity.
Defined.

Lemma smsAuth_sleeps_between_attempts_witness :
  let E := demo_env login_form accepted 200 true 2 in
  let out := smsAuth E (Some "MFRG G===") fresh in
  supplied_key E (Some "MFRG G===") = Some "MFRG G==="
  /\ exists attempts : nat,
       (attempts <= 5)%nat
       /\ List.length (http_log (snd out))
          = (List.length (http_log fresh) + attempts)%nat
       /\ slept (snd out) = slept fresh + 10 * Z.of_nat (attempts - 1)
       /\ List.length (printed (snd out))
          = (List.length (printed fresh) + (attempts - 1))%nat
       /\ slept (snd out) <= slept fresh + 40.
Proof.
  intros E out. split; [reflexivity|].
  apply (smsAuth_sleeps_between_attempts E (Some "MFRG G===") "MFRG G===" fresh).
  reflexivity.
Defined.

Lemma smsAuth_retries_only_after_rejection_witness :
  let E := demo_env login_form accepted 200 true 2 in
  supplied_key E (Some "MFRG G===") = Some "MFRG G==="
  /\ exists attempts,
       http_log (snd (smsAuth E (Some "MFRG G===") fresh))
       = (http_log fresh ++ attempts)%list
       /\ all_but_last_rejected E (http_log fresh) attempts.
Proof.
  intros E. split; [reflexivity|].
  apply (smsAuth_retries_only_after_rejection E (Some "MFRG G===")
           "MFRG G===" fresh).
  reflexivity.
Defined.

Lemma smsAuth_ignores_spaces_witness :
  let E := demo_env login_form accepted 200 true 2 in
  remove_spaces "MFRG G===" = remove_spaces "MF RGG= =="
  /\ smsAuth E (Some "MFRG G===") fresh = smsAuth E (Some "MF RGG= ==") fresh
  /\ smsAuth E (Some "MFRG G===") fresh
     = smsAuth E (Some (remove_spaces "MFRG G===")) fresh.
Proof.
  intros E. split; [reflexivity|].
  apply (smsAuth_ignores_spaces E "MFRG G===" "MF RGG= ==" fresh). reflexivity.
Defined.

Lemma login_tokens_well_formed_witness :
  group (re_search gxf_pattern login_form) 1 = Ok "GXF"
  /\ "GXF" <> "" /\ str_forall (cclass_matches CDot) "GXF" = true.
Proof.
  split; [vm_compute; reflexivity|].
  apply (proj1 (login_tokens_well_formed login_form "GXF")).
  vm_compute. reflexivity.
Defined.

End VoiceExtra.

(* ===================================================================== *)
(** * The command line                                                    *)
(* ===================================================================== *)

Module MainTheory.
Import Py Lib Util VoiceM FeedSpec VoiceSpec Scenario ExtraScenario ExtraSpec.
Import VoiceTheory.

Section WithEnv.
Variable E : Env.
Variable environ : string -> option string.

Lemma announce_keeps_voice (email passwd : option string) (batch : bool)
    (s : State) :
  exists lines,
    MainM.announce email passwd batch s
    = (Ok tt, mkState (voice s) (http_log s) (shell_log s) (slept s)
                      (printed s ++ lines) (files s)).
Proof.
  unfold MainM.announce, bind, print_line, ret.
  destruct (truthy_str email), (truthy_str passwd), batch; simpl;
    rewrite <- ?app_assoc; eexists; reflexivity.
Qed.

(** X16. The [login] of the command line returns [True] only with a
    session in place: the instance then holds a truthy session token. *)
Theorem main_login_True_has_token (email passwd : option string)
    (batch : pyval) (s s' : State) :
  MainM.login E environ email passwd batch s = (Ok true, s') ->
  truthy_str (stored_special s') = true.
Proof.
  funelim (MainM.login E environ email passwd batch s); intros Hout.
  - injection Hout as <-.
    apply VoiceExtra.bind_Ok_inv in Heq as (u & s0 & _ & Hlogin).
    now apply VoiceExtra.login_Ok_has_token in Hlogin.
  - discriminate.
  - discriminate.
  - now apply H.
  - discriminate.
Qed.

Lemma main_login_batch (email passwd : option string) (batch : pyval)
    (s : State) :
  MainM.batch_mode environ batch = true ->
  MainM.login E environ email passwd batch s
  = batch_outcome (sign_in_attempt E environ email passwd true s).
Proof.
  funelim (MainM.login E environ email passwd batch s); intros Hb;
    try congruence;
    try rewrite Hb in Heq; try rewrite Hb in Heq0; unfold sign_in_attempt;
    cbv zeta.
  - now rewrite Heq.
  - rewrite Heq0. simpl. now rewrite Heq.
  - rewrite Heq0. simpl. now rewrite Heq.
Qed.

Lemma main_login_unrolled (email passwd : option string) (batch : pyval)
    (s : State) :
  MainM.login E environ email passwd batch s
  = login_outcome E environ email passwd batch s.
Proof.
  funelim (MainM.login E environ email passwd batch s);
    unfold login_outcome; cbv zeta; rewrite ?Hbatch;
    unfold sign_in_attempt at 1; cbv zeta.
  - now rewrite Heq.
  - rewrite Heq0. now rewrite Heq.
  - rewrite Heq0, Heq. reflexivity.
  - rewrite Heq1, Heq0. unfold retry_asked. rewrite Heq.
    apply main_login_batch. reflexivity.
  - rewrite Heq1, Heq0. unfold retry_asked. now rewrite Heq.
Qed.

(** X17. The [login] of the command line never lets a [LoginError] out.
    If the first attempt succeeds it returns [True]; an exception other than
    [LoginError] passes through.  On a [LoginError] it returns [False]: in
    batch mode at once, after printing [Login failed.]; otherwise when the
    user declines the retry; and when the user accepts, it makes exactly one
    more attempt, in batch mode and without keywords, whose success gives
    [True], whose [LoginError] gives [False] after [Login failed.], and
    whose other exceptions pass through. *)
Theorem main_login_catches_LoginError (email passwd : option string)
    (batch : pyval) (s : State) :
  let is_batch := MainM.batch_mode environ batch in
  let first := sign_in_attempt E environ email passwd is_batch s in
  let retry := sign_in_attempt E environ None None true (snd first) in
  let out := MainM.login E environ email passwd batch s in
  fst out <> Raise LoginError
  /\ (forall v, fst first = Ok v -> out = (Ok true, snd first))
  /\ (forall e, fst first = Raise e -> e <> LoginError ->
        out = (Raise e, snd first))
  /\ (fst first = Raise LoginError -> is_batch = true ->
        out = (Ok false, told "Login failed." (snd first)))
  /\ (fst first = Raise LoginError -> is_batch = false ->
        retry_asked E = false -> out = (Ok false, snd first))
  /\ (fst first = Raise LoginError -> is_batch = false ->
        retry_asked E = true ->
        (forall v, fst retry = Ok v -> out = (Ok true, snd retry))
        /\ (forall e, fst retry = Raise e -> e <> LoginError ->
              out = (Raise e, snd retry))
        /\ (fst retry = Raise LoginError ->
              out = (Ok false, told "Login failed." (snd retry)))).
Proof.
  intros is_batch first retry out.
  assert (Hout : out = login_outcome E environ email passwd batch s)
    by apply main_login_unrolled.
  assert (Hstrict : forall e, MainM.is_LoginError e = false <-> e <> LoginError).
  { intros e. destruct e; simpl; split; congruence. }
  unfold login_outcome in Hout. cbv zeta in Hout.
  fold is_batch in Hout. fold first in Hout.
  assert (Hretry : forall r : result Voice * State,
             fst (batch_outcome r) <> Raise LoginError
             /\ (forall v, fst r = Ok v -> batch_outcome r = (Ok true, snd r))
             /\ (forall e, fst r = Raise e -> e <> LoginError ->
                   batch_outcome r = (Raise e, snd r))
             /\ (fst r = Raise LoginError ->
                   batch_outcome r = (Ok false, told "Login failed." (snd r)))).
  { intros [[v|e] s1]; simpl.
    - split; [discriminate|]. split; [reflexivity|]. split; discriminate.
    - destruct (MainM.is_LoginError e) eqn:He; simpl.
      + split; [discriminate|]. split; [discriminate|].
        split; [|reflexivity]. intros e' [= <-] Hne.
        apply Hstrict in Hne. congruence.
      + split; [intros [= ->]; discriminate|]. split; [discriminate|].
        split; [now intros e' [= <-]|]. intros [= ->]. discriminate. }
  destruct first as [[v|e] s1] eqn:Hfirst; simpl in *.
  - rewrite Hout. simpl. split; [discriminate|]. split; [reflexivity|].
    repeat (split; [discriminate|]). discriminate.
  - destruct (MainM.is_LoginError e) eqn:He.
    + assert (e = LoginError) as -> by (destruct e; simpl in He; congruence).
      destruct is_batch eqn:Hb.
      * rewrite Hout. simpl. split; [discriminate|]. split; [discriminate|].
        split; [congruence|]. split; [reflexivity|].
        split; discriminate.
      * destruct (retry_asked E) eqn:Hask.
        -- fold retry in Hout. rewrite Hout.
           destruct (Hretry retry) as (H1 & H2 & H3 & H4).
           split; [exact H1|]. split; [discriminate|].
           split; [congruence|]. split; [discriminate|].
           split; [discriminate|]. intros _ _ _. auto.
        -- rewrite Hout. simpl. split; [discriminate|]. split; [discriminate|].
           split; [congruence|]. split; [discriminate|].
           split; [reflexivity|]. discriminate.
    + rewrite Hout. simpl. split; [intros [= ->]; discriminate|].
      split; [discriminate|]. split; [now intros e' [= <-]|].
      split; [intros [= ->]; discriminate|].
      split; intros [= ->]; discriminate.
Qed.
End WithEnv.

Lemma main_login_catches_LoginError_witness :
  let E := logout_env in
  let first := sign_in_attempt E no_environ None None false signed_out in
  let retry := sign_in_attempt E no_environ None None true (snd first) in
  let out := MainM.login E no_environ None None PNone signed_out in
  fst first = Raise LoginError
  /\ MainM.batch_mode no_environ PNone = false
  /\ retry_asked E = true
  /\ fst retry = Raise LoginError
  /\ out = (Ok false, told "Login failed." (snd retry)).
Proof.
  intros E first retry out.
  assert (H1 : fst first = Raise LoginError) by (vm_compute; reflexivity).
  assert (H2 : MainM.batch_mode no_environ PNone = false) by reflexivity.
  assert (H3 : retry_asked E = true) by reflexivity.
  assert (H4 : fst retry = Raise LoginError) by (vm_compute; reflexivity).
  split; [exact H1|]. split; [exact H2|]. split; [exact H3|].
  split; [exact H4|].
  destruct (main_login_catches_LoginError E no_environ None None PNone signed_out)
    as (_ & _ & _ & _ & _ & Hretry).
  destruct (Hretry H1 H2 H3) as (_ & _ & Hfail).
  exact (Hfail H4).
Defined.

Lemma main_login_True_has_token_witness :
  let E := demo_env login_form accepted 200 false 0 in
  let s' := snd (MainM.login E no_environ None None PNone fresh) in
  MainM.login E no_environ None None PNone fresh = (Ok true, s')
  /\ truthy_str (stored_special s') = true.
Proof.
  intros E s'. split; [vm_compute; reflexivity|].
  apply (main_login_True_has_token E no_environ None None PNone fresh s').
  vm_compute. reflexivity.
Defined.

Example main_login_examples :
  let failing := demo_env login_form_without_gxf accepted 200 false 0 in
  fst (MainM.login logout_env no_environ None None (PBool true) signed_out)
  = Ok false
  /\ printed (snd (MainM.login logout_env no_environ None None (PBool true)
                     signed_out))
     = ["Logging into voice…"; "» BATCH: True"; "Login failed."]
  /\ fst (MainM.login failing no_environ None None PNone fresh)
     = Raise (AttributeError "'NoneType' object has no attribute 'group'").
Proof. vm_compute. repeat split. Qed.

End MainTheory.
